(** * Employee management system: data-access and bulk-load layer

    A shallow embedding of [src/main.py]: the [Employee] schema
    (lines 20-29), the CSV bulk loader [load_csv_to_db] (lines 32-51), the
    CRUD accessors [load_employees], [add_employee], [update_employee]
    and [delete_employee] (lines 91-122), and the blocks of the page that
    call them (lines 81-88 and 125-189).

    The program keeps no state of its own: everything lives in the SQLite
    table [employees], reached through SQLAlchemy sessions and, in the
    loader, through pandas.  The table is therefore the state that the
    embedded functions pass around, and the part of SQLite that decides
    what the program does (rowid allocation, NOT NULL, UNIQUE, column
    affinity) is written out in the section "The employees table". *)

From Stdlib Require Import ZArith Ascii Floats.SpecFloat.
From stdpp Require Import gmap strings list fin_maps pretty sorting.

Local Open Scope Z_scope.

(** ** Python values *)

(** A Python [float] (and an SQLite REAL) is an IEEE 754 binary64 number. *)
Definition float : Type := spec_float.

Definition isnan (x : float) : bool :=
  match x with S754_nan => true | _ => false end.

(** [math.isfinite]: neither a NaN nor an infinity. *)
Definition isfinite (x : float) : bool :=
  match x with S754_zero _ | S754_finite _ _ _ => true | _ => false end.

(** The float nearest to an integer (round to nearest, ties to even): what
    SQLite stores when an integer is bound to a column of REAL affinity, and
    the way float literals are written in the examples below. *)
Definition float_of_int (z : Z) : float := binary_normalize 53 1024 z 0 false.

(** The integer a float is equal to, if it is equal to one. *)
Definition int_of_float (x : float) : option Z :=
  match x with
  | S754_zero _ => Some 0
  | S754_finite s m e =>
      let z := if s then Z.neg m else Z.pos m in
      if 0 <=? e then Some (z * 2 ^ e)
      else if (Z.pos m) mod 2 ^ (- e) =? 0 then Some (z / 2 ^ (- e))
      else None
  | S754_infinity _ | S754_nan => None
  end.

(** Python's [==] on floats: IEEE 754 equality, for which -0.0 and 0.0 are
    equal. *)
Definition float_eq (x y : float) : bool := SFeqb x y.

(** The 64-bit signed integers: the integers of SQLite, and of a column
    that pandas reads as [int64]. *)
Definition int64 (z : Z) : bool := (- 2 ^ 63 <=? z) && (z <? 2 ^ 63).

(** The values that cross the driver: what pandas and the ORM bind to a
    statement and what a query returns.  [VNone] is Python's [None], SQL's
    NULL. *)
Inductive value : Type :=
  | VNone
  | VInt (z : Z)
  | VFloat (x : float)
  | VStr (s : string).

#[global] Instance float_eq_dec : EqDecision float.
Proof. unfold float. solve_decision. Defined.

#[global] Instance value_eq_dec : EqDecision value.
Proof. solve_decision. Defined.

(** The exceptions that the modelled calls raise. *)
Inductive exn : Type :=
  | IntegrityError      (* a NOT NULL, UNIQUE or PRIMARY KEY constraint failed,
                           or a rowid of the wrong datatype *)
  | OperationalError    (* the statement names a column the table lacks *)
  | ParserError         (* read_csv could not read the file *)
  | UnsupportedDtype.   (* pandas' ValueError "Unsigned 64 bit integer datatype
                           is not supported" *)

#[global] Instance exn_eq_dec : EqDecision exn.
Proof. solve_decision. Defined.

(** A computation that returns or raises. *)
Definition result (A : Type) : Type := exn + A.

Definition raise {A} (e : exn) : result A := inl e.

#[global] Instance result_ret : MRet result := λ A a, inr a.

#[global] Instance result_bind : MBind result := λ A B k m,
  match m with
  | inl e => inl e
  | inr a => k a
  end.

(** ** The schema (lines 20-27) *)

(** A row of [employees] without its primary key: the five business
    columns, all declared [nullable=False], [email] declared
    [unique=True].  The cells are values because SQLite types values, not
    columns; which values each column can hold is decided by the column's
    affinity (see [text_affinity] and [real_affinity] below). *)
Record Employee : Type := mkEmployee {
  name : value;
  position : value;
  email : value;
  salary : value;
  department : value
}.

#[global] Instance Employee_eq_dec : EqDecision Employee.
Proof. solve_decision. Defined.

(** ** The employees table *)

(** The table maps the primary key [id] to the rest of the row.

    [Column(Integer, primary_key=True, autoincrement=True)] makes [id] an
    alias of SQLite's rowid: SQLAlchemy's SQLite dialect renders it as
    [id INTEGER NOT NULL, PRIMARY KEY (id)] and writes the AUTOINCREMENT
    keyword only when the table sets [sqlite_autoincrement], which this
    schema does not.  Ids are SQLite integers, 64 bits wide. *)
Abbreviation table := (gmap Z Employee).

(** The largest rowid that SQLite has. *)
Definition largest_rowid : Z := 2 ^ 63 - 1.

(** The largest rowid in use, if the table has a row. *)
Definition max_rowid (t : table) : option Z :=
  map_fold (λ k _ acc, Some (match acc with None => k | Some m => Z.max k m end))
           None t.

(** The rowid of a row inserted without one: "one more than the largest
    rowid currently in use", and 1 in an empty table.  This is how SQLite
    counts as long as the largest rowid in use is below [largest_rowid].
    Once a row has the rowid [largest_rowid] (the program gets there only
    by importing a CSV that supplies that id itself) SQLite counts no
    further and draws an unused rowid at random, which no function of the
    table describes: the properties below say which id an INSERT issues
    only for tables below [largest_rowid] (see [counting]), and for the
    tables of an import without ids, which numbers its rows from 1. *)
Definition new_rowid (t : table) : Z :=
  match max_rowid t with
  | None => 1
  | Some m => m + 1
  end.

(** A column of REAL affinity keeps a float whose value is an integer as
    that integer and returns it as a float again.  One float does not
    survive this: -0.0 comes back as 0.0. *)
Definition real_column (x : float) : float :=
  match x with
  | S754_zero _ => S754_zero false
  | _ => x
  end.

(** What the FLOAT column [salary] returns for a value that it stores
    without a conversion (see [real_affinity] for the conversions). *)
Definition real_value (v : value) : value :=
  match v with
  | VFloat x => VFloat (real_column x)
  | _ => v
  end.

(** NOT NULL on the five business columns. *)
Definition not_null (e : Employee) : bool :=
  bool_decide (name e ≠ VNone ∧ position e ≠ VNone ∧ email e ≠ VNone
               ∧ salary e ≠ VNone ∧ department e ≠ VNone).

(** UNIQUE (email): does a row other than [skip] hold the email [v]? *)
Definition email_in_use (t : table) (skip : option Z) (v : value) : bool :=
  bool_decide (map_Exists (λ k r, Some k ≠ skip ∧ email r = v) t).

(** INSERT of one row, with an explicit rowid or without. *)
Definition sql_insert (t : table) (rowid : option Z) (e : Employee) : result table :=
  let k := default (new_rowid t) rowid in
  if negb (not_null e) then raise IntegrityError
  else if bool_decide (is_Some (t !! k)) then raise IntegrityError
  else if email_in_use t None (email e) then raise IntegrityError
  else mret (<[k := e]> t).

(** UPDATE of the business columns of the row [k]. *)
Definition sql_update (t : table) (k : Z) (e : Employee) : result table :=
  if negb (not_null e) then raise IntegrityError
  else if email_in_use t (Some k) (email e) then raise IntegrityError
  else mret (<[k := e]> t).

(** DELETE of the row [k]. *)
Definition sql_delete (t : table) (k : Z) : table := delete k t.

(** ** CRUD operations (lines 91-122) *)

(** What a call leaves behind: the table, and the exception that escaped
    the call, if one did. *)
Record outcome : Type := Outcome {
  db : table;
  raised : option exn
}.

(** A session's [commit()]: the statement either takes effect, or raises
    and leaves the table as it was. *)
Definition commit (t : table) (r : result table) : outcome :=
  match r with
  | inr t' => Outcome t' None
  | inl e => Outcome t (Some e)
  end.

(** [session.query(Employee).all()], each row with its id. *)
Definition load_employees (t : table) : list (Z * Employee) := map_to_list t.

(** [session.query(Employee).get(id)].  The ids that the UI asks for are
    the ints of [st.number_input], well inside the 64-bit integers. *)
Definition get (t : table) (id : Z) : option Employee := t !! id.

(** How the driver binds a Python float: a NaN as NULL, any other float as
    itself.  What the column then makes of the float is [real_value]. *)
Definition bind_float (x : float) : value :=
  if isnan x then VNone else VFloat x.

(** [Employee(name=..., position=..., email=..., salary=..., department=...)]
    as the table stores it.  The UI hands over the strings of
    [st.text_input] and the float of [st.number_input]; the float is bound
    by the driver and stored in the FLOAT column. *)
Definition new_employee (name position email : string) (salary : float)
    (department : string) : Employee :=
  mkEmployee (VStr name) (VStr position) (VStr email)
             (real_value (bind_float salary)) (VStr department).

Definition add_employee (t : table) (name position email : string)
    (salary : float) (department : string) : outcome :=
  let new_employee := new_employee name position email salary department in
  commit t (sql_insert t None new_employee).

Definition update_employee (t : table) (id : Z) (name position email : string)
    (salary : float) (department : string) : outcome :=
  match get t id with
  | Some _ =>
      commit t (sql_update t id (new_employee name position email salary department))
  | None => Outcome t None
  end.

Definition delete_employee (t : table) (id : Z) : outcome :=
  match get t id with
  | Some _ => commit t (mret (sql_delete t id))
  | None => Outcome t None
  end.

(** ** The bulk loader (lines 32-51) *)

(** What [pd.read_csv] returns: the header and, row by row, the cells under
    it.  A cell is an int or a float where pandas read the whole column as
    numbers and a string otherwise; a column of booleans is a column of the
    ints 1 and 0, as which the driver binds them; a missing cell is [VNone]
    (pandas keeps it as NaN, and [to_sql] binds NaN as NULL).  A row
    shorter than the header misses its last cells.

    The ints of a column are 64 bits wide, signed ([int64]) or, when one of
    them does not fit, unsigned ([uint64]): an int outside [int64] marks a
    column of unsigned integers (see [int64_frame]). *)
Record DataFrame : Type := mkDataFrame {
  columns : list string;
  rows : list (list value)
}.

(** The file at [csv_path], when there is one: a CSV that pandas reads, or
    something it does not. *)
Inductive csv_file : Type :=
  | Malformed
  | Csv (df : DataFrame).

Definition read_csv (f : csv_file) : result DataFrame :=
  match f with
  | Malformed => raise ParserError
  | Csv df => mret df
  end.

Definition required_columns : list string :=
  ["name"; "position"; "email"; "salary"; "department"].

(** The four lines the loader can print. *)
Inductive message : Type :=
  | Loaded                      (* "Data from ... has been successfully loaded" *)
  | MissingColumns              (* "... is missing one or more required columns" *)
  | ErrorLoadingCSV (e : exn)   (* "Error loading CSV: ..." *)
  | FileNotFound.               (* "CSV file not found: ..." *)

(** SQLite compares column names without regard to the case of ASCII
    letters. *)
Definition lower_ascii (a : ascii) : ascii :=
  let n := nat_of_ascii a in
  if ((65 <=? n) && (n <=? 90))%nat then ascii_of_nat (n + 32) else a.

Fixpoint lower (s : string) : string :=
  match s with
  | EmptyString => EmptyString
  | String a s' => String (lower_ascii a) (lower s')
  end.

(** The names by which a statement can call the primary key: the
    schema's [id], and the names SQLite gives to every rowid. *)
Definition rowid_names : list string := ["id"; "rowid"; "_rowid_"; "oid"].

Definition names_rowid (c : string) : bool :=
  bool_decide (lower c ∈ rowid_names).

(** The columns that an INSERT into [employees] may name. *)
Definition is_table_column (c : string) : bool :=
  names_rowid c || bool_decide (lower c ∈ required_columns).

(** The cell that an INSERT naming the columns [cols] binds to the table
    column [c]: the one under the first column of that name, NULL when no
    column has the name or the row ends before it. *)
Fixpoint cell (cols : list string) (r : list value) (c : string) : value :=
  match cols, r with
  | c' :: cols', v :: r' => if decide (lower c' = c) then v else cell cols' r' c
  | _, _ => VNone
  end.

(** The cell that it binds to the rowid: the one under the last column
    that names the rowid, NULL when there is none. *)
Fixpoint last_rowid_cell (cols : list string) (r : list value) (found : value)
    : value :=
  match cols with
  | [] => found
  | c :: cols' =>
      last_rowid_cell cols' (tail r) (if names_rowid c then hd VNone r else found)
  end.

Definition rowid_cell (cols : list string) (r : list value) : value :=
  last_rowid_cell cols r VNone.

(** Does the frame have integer columns of [int64] only? *)
Definition int64_cell (v : value) : bool :=
  match v with
  | VInt z => int64 z
  | _ => true
  end.

Definition int64_frame (df : DataFrame) : bool :=
  forallb (forallb int64_cell) (rows df).

(** [cursor.executemany(statement, rows)]: the statement runs for one row
    after the other and stops at the first row for which it raises; what it
    wrote for the rows before is written. *)
Fixpoint executemany {A} (statement : table → A → result table) (t : table)
    (rows : list A) : outcome :=
  match rows with
  | [] => Outcome t None
  | r :: rows' =>
      match statement t r with
      | inr t' => executemany statement t' rows'
      | inl e => Outcome t (Some e)
      end
  end.

(** [to_sql] binds NaN as NULL. *)
Definition pandas_bind (v : value) : value :=
  match v with
  | VFloat x => bind_float x
  | _ => v
  end.

(** A number read by SQLite from a text. *)
Inductive number : Type :=
  | NInt (z : Z)
  | NReal (x : float).

(** SQLite converts between numbers and text with routines of its own,
    which the program never calls by name: the text it writes for a REAL
    stored in a TEXT column, and the number it reads from a text that
    looks like a numeric literal (none from any other text).  The loader is
    modelled for whatever these two functions are. *)
Class Conversions : Type := {
  text_of_float : float → string;
  number_of_text : string → option number
}.

Section to_sql.

Context `{Conversions}.

(** Affinity of the VARCHAR columns: a number is stored as its text. *)
Definition text_affinity (v : value) : value :=
  match v with
  | VNone => VNone
  | VInt z => VStr (pretty z)
  | VFloat x => VStr (text_of_float x)
  | VStr s => VStr s
  end.

(** Affinity of the FLOAT column: an integer, or a text that spells a
    number, is turned into a float, and the float is stored as a REAL
    column stores it; any other text is stored as it is, for SQLite does
    not reject a value for its type. *)
Definition real_affinity (v : value) : value :=
  real_value
    match v with
    | VNone => VNone
    | VInt z => VFloat (float_of_int z)
    | VFloat x => VFloat x
    | VStr s =>
        match number_of_text s with
        | Some (NInt z) => VFloat (float_of_int z)
        | Some (NReal x) => VFloat x
        | None => VStr s
        end
    end.

(** The rowid that a value bound to the primary key asks for: none when
    it is NULL, a 64-bit integer when it is one or converts to one without
    loss; anything else is a datatype mismatch.  The conversion of a float
    leaves out the two ends of the range. *)
Definition rowid_of (v : value) : result (option Z) :=
  let of_int z :=
    if int64 z then mret (Some z) else raise IntegrityError in
  let of_float x :=
    match int_of_float x with
    | Some z =>
        if (- 2 ^ 63 <? z) && (z <? 2 ^ 63 - 1) then mret (Some z)
        else raise IntegrityError
    | None => raise IntegrityError
    end in
  match v with
  | VNone => mret None
  | VInt z => of_int z
  | VFloat x => of_float x
  | VStr s =>
      match number_of_text s with
      | Some (NInt z) => of_int z
      | Some (NReal x) => of_float x
      | None => raise IntegrityError
      end
  end.

(** The value that a row of the frame binds to the table column [c]. *)
Definition bound (cols : list string) (r : list value) (c : string) : value :=
  pandas_bind (cell cols r c).

(** The business columns of a row of the frame, as the table stores them. *)
Definition row_employee (cols : list string) (r : list value) : Employee :=
  mkEmployee (text_affinity (bound cols r "name"))
             (text_affinity (bound cols r "position"))
             (text_affinity (bound cols r "email"))
             (real_affinity (bound cols r "salary"))
             (text_affinity (bound cols r "department")).

(** The INSERT of one row of the frame. *)
Definition insert_row (cols : list string) (t : table) (r : list value)
    : result table :=
  rowid ← rowid_of (pandas_bind (rowid_cell cols r));
  sql_insert t rowid (row_employee cols r).

(** [df.to_sql('employees', engine, if_exists='append', index=False)].
    pandas first maps the columns of the frame to SQL types, and refuses a
    column of unsigned 64-bit integers.  It then runs one INSERT that names
    every column of the frame, for all rows in one [executemany]; a frame
    without rows runs no statement.  pandas (2.0 and later) commits its
    transaction when [to_sql] ends, also when it ends in an exception:
    what the INSERT wrote before it raised stays in the table. *)
Definition to_sql (df : DataFrame) (t : table) : outcome :=
  if negb (int64_frame df) then Outcome t (Some UnsupportedDtype)
  else
    match rows df with
    | [] => Outcome t None
    | _ =>
        if forallb is_table_column (columns df)
        then executemany (insert_row (columns df)) t (rows df)
        else Outcome t (Some OperationalError)
    end.

(** [Employee.__table__.drop(engine, checkfirst=True)]. *)
Definition drop (t : option table) : option table := None.

(** [Base.metadata.create_all(engine)]: creates the table that is missing
    and leaves an existing one alone. *)
Definition create_all (t : option table) : option table :=
  match t with
  | Some t => Some t
  | None => Some ∅
  end.

(** [load_csv_to_db] (lines 32-51).  [fs] is the file at [csv_path], if it
    exists.  The body runs inside [try: ... except Exception], so nothing
    escapes the call, and the handler only prints: what an exception leaves
    behind is the table as the statements before it made it. *)
Definition load_csv_to_db (fs : option csv_file) (t : table) : outcome * message :=
  match fs with
  | Some f =>
      match read_csv f with
      | inr df =>
          if bool_decide (required_columns ⊆ columns df) then
            let t0 := default ∅ (create_all (drop (Some t))) in
            let inserted := to_sql df t0 in
            match raised inserted with
            | None => (Outcome (db inserted) None, Loaded)
            | Some e => (Outcome (db inserted) None, ErrorLoadingCSV e)
            end
          else (Outcome t None, MissingColumns)
      | inl e => (Outcome t None, ErrorLoadingCSV e)
      end
  | None => (Outcome t None, FileNotFound)
  end.

End to_sql.

(** ** The page (lines 78-88 and 125-189) *)

(** The rest of [main.py] is the Streamlit script.  Streamlit runs it from
    top to bottom on every interaction; a widget call returns what the
    user has entered, a button call returns [True] in the run that its
    click started, and [st.session_state] lasts as long as the browser
    session.  The script is embedded block by block, each block a function
    of the values that its widgets return.  The charts are left out, and
    of the average salary (a floating-point mean of pandas) only whether
    pandas can compute it is kept: they show the table and write
    nothing. *)

(** *** The figures of the dashboard (lines 130-147) *)

(** [df], the frame of line 130, has one row per listed employee: its id
    and its five business columns, that is, the pairs of
    [load_employees]. *)

(** [len(df)], the metric "Total Employees". *)
Definition total_employees (df : list (Z * Employee)) : nat := length df.

(** [df['Department']]. *)
Definition Department (df : list (Z * Employee)) : list value :=
  (λ row, department row.2) <$> df.

(** pandas leaves missing values out of what it counts. *)
Definition dropna (l : list value) : list value := filter (λ v, v ≠ VNone) l.

(** [nunique()], the metric "Number of Departments": how many different
    values the column has.  The column holds texts (it has TEXT affinity),
    on which Python's [==] is equality of strings. *)
Definition nunique (l : list value) : nat := length (remove_dups (dropna l)).

(** [value_counts()], the slices of the pie chart: each value of the column
    with the number of rows that have it.  pandas lists them by falling
    count, values of equal count in no order that it promises; the order
    is not modelled. *)
Definition value_counts (l : list value) : list (value * nat) :=
  (λ v, (v, length (filter (λ w, w = v) l))) <$> remove_dups (dropna l).

(** *** Runs of a block *)

(** What can escape a block of the script: an exception of the store, of
    one of Python's conversions or of pandas, or Streamlit's refusal of an
    argument. *)
Inductive py_exn : Type :=
  | StoreError (e : exn)
  | ValueError
  | TypeError
  | StreamlitAPIException.

(** What ends a run before the end of the script: an exception, which
    Streamlit shows in place of the rest of the page, or
    [st.experimental_rerun()]. *)
Inductive stop : Type :=
  | Raised (e : py_exn)
  | Rerun.

(** The boxes that [st.success] and [st.warning] show. *)
Inductive notice : Type :=
  | DataLoadedSuccessfully   (* "Data loaded successfully!" *)
  | EmployeeNotFound         (* "Employee not found." *)
  | EmployeeUpdated          (* "Employee updated successfully!" *)
  | EmployeeDeleted          (* "Employee deleted successfully!" *)
  | EmployeeAdded.           (* "Employee added successfully!" *)

(** What a run works on: the table, the entry ['db_loaded'] of
    [st.session_state] (if the session has one), the boxes shown so far
    and the lines printed on the server's console. *)
Record page : Type := Page {
  store : table;
  db_loaded : option bool;
  notices : list notice;
  console : list message
}.

(** A block of the script: it runs on a page and ends, stopped or not, on
    a page. *)
Definition script (A : Type) : Type := page → (stop + A) * page.

#[global] Instance script_ret : MRet script := λ A a p, (inr a, p).

#[global] Instance script_bind : MBind script := λ A B k m p,
  match m p with
  | (inl s, p') => (inl s, p')
  | (inr a, p') => k a p'
  end.

(** [st.success(...)] and [st.warning(...)]. *)
Definition notify (n : notice) : script unit := λ p,
  (inr (), Page (store p) (db_loaded p) (notices p ++ [n]) (console p)).

(** [st.experimental_rerun()]. *)
Definition experimental_rerun : script unit := λ p, (inl Rerun, p).

(** A call of one of the CRUD functions: what it raises escapes the
    block. *)
Definition call (f : table → outcome) : script unit := λ p,
  let out := f (store p) in
  let p' := Page (db out) (db_loaded p) (notices p) (console p) in
  match raised out with
  | None => (inr (), p')
  | Some e => (inl (Raised (StoreError e)), p')
  end.

(** Python's [float(s)] on a string, which the script never defines: the
    float that the string spells, if it spells one. *)
Class Python : Type := {
  float_of_str : string → option float
}.

(** [float(v)]: a float is itself, an int is converted, a string is parsed
    or raises [ValueError], [None] raises [TypeError]. *)
Definition py_float `{Python} (v : value) : script float := λ p,
  match v with
  | VFloat x => (inr x, p)
  | VInt z => (inr (float_of_int z), p)
  | VStr s =>
      match float_of_str s with
      | Some x => (inr x, p)
      | None => (inl (Raised ValueError), p)
      end
  | VNone => (inl (Raised TypeError), p)
  end.

(** *** Loading once per session (lines 81-88) *)

(** The script sets ['db_loaded'] to [False] in a session that lacks it;
    while it is [False] it runs the loader, sets it to [True] and shows
    the success box. *)
Definition startup `{Conversions} (fs : option csv_file) : script unit := λ p,
  let loaded := default false (db_loaded p) in
  if loaded then (inr (), Page (store p) (Some loaded) (notices p) (console p))
  else
    let run := load_csv_to_db fs (store p) in
    let p' := Page (db run.1) (Some true) (notices p) (console p ++ [run.2]) in
    match raised run.1 with
    | None => notify DataLoadedSuccessfully p'
    | Some e =>
        (inl (Raised (StoreError e)),
         Page (db run.1) (Some false) (notices p) (console p ++ [run.2]))
    end.

(** *** The widgets *)

(** The radio "Choose action". *)
Inductive choice : Type :=
  | EditAction     (* "Edit" *)
  | DeleteAction.  (* "Delete" *)

(** What the widgets of the page return in a run, each under its [key]:
    the id of the number input [edit_id] (1 at least), the radio, the five
    inputs of the edit form and its button, the delete button, and the five
    inputs and the button of the add form.  A button returns [true] in the
    run that its click started. *)
Record widgets : Type := Widgets {
  edit_id : Z;
  action : choice;
  edit_name : string;
  edit_position : string;
  edit_email : string;
  edit_salary : float;
  edit_department : string;
  update_button : bool;
  delete_button : bool;
  add_name : string;
  add_position : string;
  add_email : string;
  add_salary : float;
  add_department : string;
  add_button : bool
}.

(** *** The dashboard, as it runs (lines 127-148) *)

(** [employee['Salary']], [df['Salary']]. *)
Definition Salary (employee : Z * Employee) : value := salary employee.2.

Definition is_str (v : value) : bool :=
  match v with VStr _ => true | _ => false end.

(** The texts of a column. *)
Definition texts (column : list value) : list string :=
  omap (λ v, match v with VStr s => Some s | _ => None end) column.

(** pandas averages a column by adding its cells up.  A text and a number
    it cannot add.  Texts it adds to each other by concatenation, and what
    it does with a sum that is a text depends on its version (2.1 and
    later raise [TypeError] for every text, earlier ones for a text that
    Python does not read as a number): whether it averages a column that
    holds these texts and nothing else is a parameter of the model. *)
Class Pandas : Type := {
  averages_texts : list string → bool
}.

(** [df['Salary'].mean()] (line 136).  The column holds the salaries as the
    table returns them: floats, and texts where a salary was imported that
    is no number.  pandas raises [TypeError] when it cannot average them.
    The mean is shown and not used again; its value is not modelled. *)
Definition mean `{Pandas} (column : list value) : script unit := λ p,
  match texts column with
  | [] => (inr (), p)
  | ts =>
      if forallb is_str column && averages_texts ts then (inr (), p)
      else (inl (Raised TypeError), p)
  end.

(** The block [with tab1:] on the frame [df] of line 130.  The counts of
    the other metrics and of the pie chart ([total_employees], [nunique],
    [value_counts] above) raise nothing. *)
Definition tab1 `{Pandas} (df : list (Z * Employee)) : script unit :=
  mean (Salary <$> df).

(** *** Edit or delete (lines 150-177) *)

(** [df[df['ID'] == employee_id].iloc[0]], or [None] when no row has the
    id. *)
Definition find_employee (df : list (Z * Employee)) (employee_id : Z)
    : option (Z * Employee) :=
  head (filter (λ row, row.1 = employee_id) df).

(** [st.number_input(..., value=x)] for a float [x]: Streamlit refuses a
    value beyond the largest float that JavaScript has, that is, an
    infinity. *)
Definition number_input (value : float) : script unit := λ p,
  match value with
  | S754_infinity _ => (inl (Raised StreamlitAPIException), p)
  | _ => (inr (), p)
  end.

(** The block [with tab2:] on the frame [df].  The form and its button are
    on the page only when the frame has the id, and the form's salary
    input asks for [float(employee['Salary'])] as its default. *)
Definition tab2 `{Python} (df : list (Z * Employee)) (w : widgets)
    : script unit :=
  let employee_id := edit_id w in
  match action w with
  | EditAction =>
      match find_employee df employee_id with
      | Some employee =>
          value ← py_float (Salary employee);
          _ ← number_input value;
          if update_button w then
            _ ← call (λ t, update_employee t employee_id (edit_name w)
                             (edit_position w) (edit_email w) (edit_salary w)
                             (edit_department w));
            _ ← notify EmployeeUpdated;
            experimental_rerun
          else mret ()
      | None => notify EmployeeNotFound
      end
  | DeleteAction =>
      if delete_button w then
        _ ← call (λ t, delete_employee t employee_id);
        _ ← notify EmployeeDeleted;
        experimental_rerun
      else mret ()
  end.

(** *** Add (lines 179-189) *)

(** The block [with tab3:]. *)
Definition tab3 (w : widgets) : script unit :=
  if add_button w then
    _ ← call (λ t, add_employee t (add_name w) (add_position w) (add_email w)
                     (add_salary w) (add_department w));
    _ ← notify EmployeeAdded;
    experimental_rerun
  else mret ().

(** *** The three tabs (lines 125-189) *)

(** The blocks run one after the other, the second and the third only if
    nothing stopped the run before them; the second works on the frame
    that the first has built from the table (lines 129-131). *)
Definition tabs `{Pandas} `{Python} (w : widgets) : script unit := λ p,
  let df := load_employees (store p) in
  (_ ← tab1 df; _ ← tab2 df w; tab3 w) p.

(** ** Vocabulary of the properties *)

(** A field tuple that the data model accepts: non-empty texts and a
    salary that is a number. *)
Definition valid_fields (name position email : string) (salary : float)
    (department : string) : Prop :=
  name ≠ "" ∧ position ≠ "" ∧ department ≠ "" ∧ isnan salary = false.

(** The record [r] has the email [e]. *)
Definition has_email (r : Employee) (e : string) : Prop := email r = VStr e.

(** No row of the table, the row [skip] apart, has the email [e]. *)
Definition email_free (t : table) (skip : option Z) (e : string) : Prop :=
  ∀ k r, t !! k = Some r → Some k ≠ skip → ¬ has_email r e.

(** A cell that holds a text, and a cell that holds nothing (pandas keeps
    a missing cell as NaN). *)
Definition is_text (v : value) : Prop := ∃ s, v = VStr s.

Definition missing (v : value) : Prop := pandas_bind v = VNone.

(** The cells of the row [r] under the four text columns are texts. *)
Definition text_row (cols : list string) (r : list value) : Prop :=
  is_text (cell cols r "name") ∧ is_text (cell cols r "position")
  ∧ is_text (cell cols r "email") ∧ is_text (cell cols r "department").

(** A salary cell that is a number (a float, or an int of an [int64]
    column), and the float that the table returns for it. *)
Inductive salary_cell : value → value → Prop :=
  | salary_float (x : float) :
      isnan x = false → salary_cell (VFloat x) (VFloat (real_column x))
  | salary_int (z : Z) :
      int64 z = true →
      salary_cell (VInt z) (VFloat (real_column (float_of_int z))).

(** A well-formed row of a CSV with the header [cols], and the record [e]
    it spells: texts under the four text columns, a number under
    [salary]. *)
Definition well_formed_row (cols : list string) (r : list value) (e : Employee)
    : Prop :=
  is_text (name e) ∧ is_text (position e) ∧ is_text (email e)
  ∧ is_text (department e)
  ∧ cell cols r "name" = name e
  ∧ cell cols r "position" = position e
  ∧ cell cols r "email" = email e
  ∧ cell cols r "department" = department e
  ∧ salary_cell (cell cols r "salary") (salary e).

(** The table that holds the records [es], in this order, after the
    records of [t]. *)
Definition append_rows (t : table) (es : list Employee) : table :=
  foldl (λ t e, <[new_rowid t := e]> t) t es.

(** The constraints of the schema: no NULL in a business column, no email
    in two rows. *)
Definition consistent (t : table) : Prop :=
  (∀ k r, t !! k = Some r → not_null r = true)
  ∧ (∀ k1 k2 r1 r2,
       t !! k1 = Some r1 → t !! k2 = Some r2 → email r1 = email r2 → k1 = k2).

(** Every id of the table is below [k]. *)
Definition above (t : table) (k : Z) : Prop :=
  ∀ j, is_Some (t !! j) → j < k.

(** The table has not reached the largest rowid: SQLite still counts, and
    [new_rowid] is the id that the next INSERT issues. *)
Definition counting (t : table) : Prop := above t largest_rowid.

(** Every salary of the table is a float, as it is unless a text that is
    no number was imported as a salary; and every salary is a finite
    float. *)
Definition float_salaries (t : table) : Prop :=
  map_Forall (λ _ r, match salary r with VFloat _ => true | _ => false end = true) t.

Definition finite_salaries (t : table) : Prop :=
  map_Forall (λ _ r, match salary r with VFloat x => isfinite x | _ => false end
                     = true) t.

(** The warning that the second tab shows when "Edit" is chosen and no
    record has the id entered. *)
Definition edit_warning (t : table) (w : widgets) : list notice :=
  match action w, get t (edit_id w) with
  | EditAction, None => [EmployeeNotFound]
  | _, _ => []
  end.

(** Sequences of create and delete calls, and the ids they issue: the ids
    that a call adds to the table. *)
Inductive op : Type :=
  | Create (name position email : string) (salary : float) (department : string)
  | Delete (id : Z).

Definition is_create (o : op) : Prop :=
  match o with
  | Create _ _ _ _ _ => True
  | Delete _ => False
  end.

Definition apply_op (t : table) (o : op) : outcome :=
  match o with
  | Create name position email salary department =>
      add_employee t name position email salary department
  | Delete id => delete_employee t id
  end.

Definition issued (t : table) (o : op) : list Z :=
  elements (dom (db (apply_op t o)) ∖ dom t).

Fixpoint final (t : table) (ops : list op) : table :=
  match ops with
  | [] => t
  | o :: ops' => final (db (apply_op t o)) ops'
  end.

Fixpoint issued_ids (t : table) (ops : list op) : list Z :=
  match ops with
  | [] => []
  | o :: ops' => issued t o ++ issued_ids (db (apply_op t o)) ops'
  end.

(** The table stays below the largest rowid along the sequence. *)
Definition keeps_counting (t : table) (ops : list op) : Prop :=
  ∀ before after, ops = before ++ after → counting (final t before).

(** Conversions for the worked examples.  Their frames hold texts in the
    text columns, so [text_of_float] is never called; [number_of_text]
    reads no text as a number, which is what SQLite does with the one text
    the examples put under [salary] (["abc"]). *)
Definition example_conversions : Conversions := {|
  text_of_float := λ _, "";
  number_of_text := λ _, None
|}.

(** Python's [float] for the worked examples: it reads no string.  In the
    examples the script never comes to call [float] on a string. *)
Definition example_python : Python := {| float_of_str := λ _, None |}.

(** pandas for the worked examples: the recent versions, which average no
    column of texts. *)
Definition example_pandas : Pandas := {| averages_texts := λ _, false |}.

(** Decides a closed decidable proposition by evaluation. *)
Ltac by_evaluation :=
  match goal with
  | |- ?P => apply (bool_decide_unpack P); vm_compute; exact I
  end.

(** Proves that the rows of a concrete frame are well formed. *)
Ltac well_formed_rows :=
  repeat lazymatch goal with
         | |- Forall2 _ _ _ => constructor
         | |- Forall _ _ => constructor
         end;
  vm_compute;
  repeat split;
  try (by eexists);
  lazymatch goal with
  | |- salary_cell (VInt ?z) _ => exact (salary_int z eq_refl)
  | |- salary_cell (VFloat ?x) _ => exact (salary_float x eq_refl)
  end.

(** * Properties *)

(** ** The table *)

Lemma max_rowid_spec (t : table) :
  match max_rowid t with
  | None => t = ∅
  | Some m => is_Some (t !! m) ∧ ∀ k, is_Some (t !! k) → k ≤ m
  end.
Proof.
  unfold max_rowid.
  apply (map_fold_weak_ind (λ (acc : option Z) (m : table),
    match acc with
    | None => m = ∅
    | Some v => is_Some (m !! v) ∧ ∀ k, is_Some (m !! k) → k ≤ v
    end)); [done|].
  intros i x m r Hi IH. destruct r as [v|].
  - destruct IH as [Hv Hmax]. split.
    + destruct (Z.max_spec i v) as [[_ ->]|[_ ->]].
      * rewrite lookup_insert_ne; [done|]. intros ->. rewrite Hi in Hv.
        by destruct Hv.
      * rewrite lookup_insert_eq. eauto.
    + intros k Hk. destruct (decide (i = k)) as [->|Hne]; [lia|].
      rewrite lookup_insert_ne in Hk by done. specialize (Hmax k Hk). lia.
  - subst m. split.
    + rewrite lookup_insert_eq. eauto.
    + intros k Hk. destruct (decide (i = k)) as [->|Hne]; [lia|].
      rewrite lookup_insert_ne, lookup_empty in Hk by done. by destruct Hk.
Qed.

Lemma new_rowid_above (t : table) : above t (new_rowid t).
Proof.
  intros j Hj. unfold new_rowid. pose proof (max_rowid_spec t) as H.
  destruct (max_rowid t) as [m|].
  - destruct H as [_ H]. specialize (H j Hj). lia.
  - subst t. rewrite lookup_empty in Hj. by destruct Hj.
Qed.

Lemma above_fresh (t : table) (k : Z) : above t k → t !! k = None.
Proof.
  intros H. destruct (t !! k) eqn:E; [|done].
  assert (k < k) by (apply H; rewrite E; eauto). lia.
Qed.

Lemma new_rowid_fresh (t : table) : t !! new_rowid t = None.
Proof. apply above_fresh, new_rowid_above. Qed.

Lemma above_new_rowid (t : table) (k : Z) : new_rowid t ≤ k → above t k.
Proof.
  intros Hk j Hj. pose proof (new_rowid_above t j Hj). lia.
Qed.

Lemma counting_new_rowid (t : table) : new_rowid t ≤ largest_rowid → counting t.
Proof. apply above_new_rowid. Qed.

Lemma new_rowid_insert (t : table) (k : Z) (e : Employee) :
  above t k → new_rowid (<[k := e]> t) = k + 1.
Proof.
  intros Hk. unfold new_rowid. pose proof (max_rowid_spec (<[k := e]> t)) as H.
  destruct (max_rowid (<[k := e]> t)) as [m|].
  - destruct H as [Hm Hmax]. f_equal.
    assert (k ≤ m) by (apply Hmax; rewrite lookup_insert_eq; eauto).
    destruct (decide (k = m)) as [|Hne]; [done|].
    rewrite lookup_insert_ne in Hm by done. specialize (Hk m Hm). lia.
  - exfalso. apply (insert_non_empty t k e). done.
Qed.

Lemma email_in_use_true (t : table) (skip : option Z) (v : value) :
  email_in_use t skip v = true ↔
  ∃ k r, t !! k = Some r ∧ Some k ≠ skip ∧ email r = v.
Proof. unfold email_in_use. rewrite bool_decide_eq_true. done. Qed.

Lemma email_in_use_false (t : table) (skip : option Z) (e : string) :
  email_free t skip e → email_in_use t skip (VStr e) = false.
Proof.
  intros Hfree. apply not_true_is_false. rewrite email_in_use_true.
  intros (k & r & Hk & Hskip & He). by apply (Hfree k r).
Qed.

Lemma email_free_check (t : table) (skip : option Z) (e : string) :
  email_in_use t skip (VStr e) = false → email_free t skip e.
Proof.
  intros Huse k r Hk Hskip He.
  apply not_true_iff_false in Huse. apply Huse, email_in_use_true. eauto.
Qed.

Lemma not_null_new_employee name position email salary department :
  not_null (new_employee name position email salary department)
  = negb (isnan salary).
Proof.
  unfold not_null, new_employee, bind_float.
  by destruct (isnan salary).
Qed.

Lemma new_employee_number name position email salary department :
  isnan salary = false →
  new_employee name position email salary department
  = mkEmployee (VStr name) (VStr position) (VStr email)
               (VFloat (real_column salary)) (VStr department).
Proof. intros Hnan. unfold new_employee, bind_float. by rewrite Hnan. Qed.

Lemma new_employee_valid name position email salary department :
  valid_fields name position email salary department →
  new_employee name position email salary department
  = mkEmployee (VStr name) (VStr position) (VStr email)
               (VFloat (real_column salary)) (VStr department).
Proof. intros (_ & _ & _ & Hnan). by apply new_employee_number. Qed.

(** The float that the table returns for a salary is equal to it. *)
Lemma real_column_eq (x : float) :
  isnan x = false → float_eq (real_column x) x = true.
Proof.
  destruct x as [s|s| |s m e]; simpl; try done; intros _.
  - by destruct s.
  - unfold float_eq, SFeqb, SFcompare.
    rewrite Z.compare_refl, Pos.compare_cont_refl. by destruct s.
Qed.

(** An INSERT without rowid succeeds exactly when the row has no NULL and
    its email is new, and then adds the row under [new_rowid]. *)
Lemma sql_insert_auto (t : table) (e : Employee) :
  sql_insert t None e =
  if not_null e && negb (email_in_use t None (email e))
  then inr (<[new_rowid t := e]> t)
  else inl IntegrityError.
Proof.
  unfold sql_insert; simpl. rewrite new_rowid_fresh.
  rewrite (bool_decide_eq_false_2 (is_Some None)) by (by intros [? ?]).
  by destruct (not_null e), (email_in_use t None (email e)).
Qed.

(** The statements keep the constraints of the schema. *)
Lemma consistent_insert (t : table) (k : Z) (e : Employee) :
  consistent t →
  not_null e = true →
  email_in_use t (Some k) (email e) = false →
  consistent (<[k := e]> t).
Proof.
  intros [Hnull Huniq] He Huse. apply not_true_iff_false in Huse.
  assert (∀ j r, t !! j = Some r → j ≠ k → email r ≠ email e) as Hother.
  { intros j r Hj Hne Heq. apply Huse, email_in_use_true. exists j, r.
    split; [done|]. split; [congruence|done]. }
  split.
  - intros j r [[-> <-]|[Hne Hj]]%lookup_insert_Some; eauto.
  - intros k1 k2 r1 r2 [[-> <-]|[Hne1 Hk1]]%lookup_insert_Some
      [[E2 <-]|[Hne2 Hk2]]%lookup_insert_Some Heq; subst.
    + done.
    + exfalso. by apply (Hother k2 r2).
    + exfalso. by apply (Hother k1 r1).
    + by apply (Huniq k1 k2 r1 r2).
Qed.

Lemma consistent_delete (t : table) (k : Z) :
  consistent t → consistent (delete k t).
Proof.
  intros [Hnull Huniq]. split.
  - intros j r [_ Hj]%lookup_delete_Some. eauto.
  - intros k1 k2 r1 r2 [_ Hk1]%lookup_delete_Some [_ Hk2]%lookup_delete_Some.
    by apply Huniq.
Qed.

Lemma email_in_use_skip (t : table) (k : Z) (v : value) :
  t !! k = None →
  email_in_use t (Some k) v = email_in_use t None v.
Proof.
  intros Hk. unfold email_in_use. apply bool_decide_ext.
  split; intros (j & r & Hj & Hskip & Hr); exists j, r;
    (split; [done|]); (split; [|done]); congruence.
Qed.

Lemma consistent_sql_insert (t t' : table) (rowid : option Z) (e : Employee) :
  consistent t → sql_insert t rowid e = inr t' → consistent t'.
Proof.
  intros Ht. unfold sql_insert.
  destruct (not_null e) eqn:Hnull; simpl; [|done].
  case_bool_decide as Hk; [done|].
  destruct (email_in_use t None (email e)) eqn:Huse; [done|].
  intros [= <-]. apply consistent_insert; [done..|].
  rewrite email_in_use_skip; [done|].
  by apply eq_None_not_Some.
Qed.

Lemma consistent_sql_update (t t' : table) (k : Z) (e : Employee) :
  consistent t → sql_update t k e = inr t' → consistent t'.
Proof.
  intros Ht. unfold sql_update.
  destruct (not_null e) eqn:Hnull; simpl; [|done].
  destruct (email_in_use t (Some k) (email e)) eqn:Huse; [done|].
  intros [= <-]. by apply consistent_insert.
Qed.

Lemma consistent_commit (t : table) (r : result table) :
  consistent t → (∀ t', r = inr t' → consistent t') → consistent (db (commit t r)).
Proof. intros Ht Hr. destruct r as [e|t']; simpl; eauto. Qed.

(** ** Create *)

(** C1, as amended.  For every valid field tuple whose email no record of
    the table holds, [add_employee] returns without an exception, and
    [load_employees] then lists the records of before, unchanged, and
    exactly one new record.  The new record holds the five fields given,
    the salary as the float that the table returns for it, which is equal
    to it (0.0 for -0.0), and its id is one that no record of the table
    had before the call.  (It need not be an id that was never issued
    before: see the counterexample.) *)
Theorem C1_create_then_list_all (t : table) (name position email : string)
    (salary : float) (department : string) :
  valid_fields name position email salary department →
  email_free t None email →
  let out := add_employee t name position email salary department in
  let new := mkEmployee (VStr name) (VStr position) (VStr email)
                        (VFloat (real_column salary)) (VStr department) in
  float_eq (real_column salary) salary = true
  ∧ raised out = None
  ∧ ∃ id : Z,
      load_employees (db out) ≡ₚ (id, new) :: load_employees t
      ∧ get t id = None
      ∧ ∀ k r, get t k = Some r → get (db out) k = Some r.
Proof.
  intros Hvalid Hfree out new.
  assert (out = Outcome (<[new_rowid t := new]> t) None) as ->.
  { unfold out, add_employee. rewrite sql_insert_auto.
    rewrite not_null_new_employee, (new_employee_valid _ _ _ _ _ Hvalid).
    destruct Hvalid as (_ & _ & _ & ->); simpl.
    by rewrite (email_in_use_false _ _ _ Hfree). }
  simpl. unfold load_employees, get.
  split; [apply real_column_eq, Hvalid|]. split; [done|].
  exists (new_rowid t).
  split; [apply map_to_list_insert, new_rowid_fresh|].
  split; [apply new_rowid_fresh|].
  intros k r Hk. rewrite lookup_insert_ne; [done|].
  intros <-. by rewrite new_rowid_fresh in Hk.
Qed.

Lemma C1_create_then_list_all_witness :
  let t := db (add_employee ∅ "Ann" "Engineer" "ann@x.com" (float_of_int 90000) "Eng") in
  let out := add_employee t "Bob" "Manager" "bob@x.com" (float_of_int 110000) "Ops" in
  raised out = None
  ∧ ∃ id : Z,
      load_employees (db out)
      ≡ₚ (id, mkEmployee (VStr "Bob") (VStr "Manager") (VStr "bob@x.com")
                         (VFloat (float_of_int 110000)) (VStr "Ops"))
         :: load_employees t.
Proof.
  intros t.
  destruct (C1_create_then_list_all t "Bob" "Manager" "bob@x.com"
              (float_of_int 110000) "Ops") as (_ & H1 & id & H2 & _).
  - repeat split; discriminate.
  - by apply email_free_check; vm_compute.
  - split; [exact H1|]. exists id. exact H2.
Defined.

(** C1 as stated fails where it says that the id was not previously
    issued: after the record with the largest id is deleted, the next
    create issues that id again.  Ann gets id 1 and Bob id 2; Bob is
    deleted; Cyd, a valid tuple with a new email, gets id 2. *)
Lemma C1_id_of_deleted_record_reissued :
  let t1 := db (add_employee ∅ "Ann" "Engineer" "ann@x.com" (float_of_int 90000) "Eng") in
  let t2 := db (add_employee t1 "Bob" "Manager" "bob@x.com" (float_of_int 110000) "Ops") in
  let t3 := db (delete_employee t2 2) in
  let t4 := db (add_employee t3 "Cyd" "Clerk" "cyd@x.com" (float_of_int 50000) "Ops") in
  get t1 2 = None
  ∧ name <$> get t2 2 = Some (VStr "Bob")
  ∧ get t3 2 = None
  ∧ valid_fields "Cyd" "Clerk" "cyd@x.com" (float_of_int 50000) "Ops"
  ∧ email_free t3 None "cyd@x.com"
  ∧ name <$> get t4 2 = Some (VStr "Cyd").
Proof.
  intros t1 t2 t3 t4.
  split; [by vm_compute|]. split; [by vm_compute|]. split; [by vm_compute|].
  split; [repeat split; discriminate|].
  split; [by apply email_free_check; vm_compute|by vm_compute].
Qed.

(** C3.  When a record of the table holds the email [email], a create
    with that email raises the store's constraint violation
    ([IntegrityError]) and leaves the table exactly as it was. *)
Theorem C3_create_duplicate_email (t : table) (k : Z) (r : Employee)
    (name position email : string) (salary : float) (department : string) :
  get t k = Some r →
  has_email r email →
  add_employee t name position email salary department
  = Outcome t (Some IntegrityError).
Proof.
  intros Hk He. unfold add_employee. rewrite sql_insert_auto.
  replace (email_in_use t None _) with true; [by rewrite andb_false_r|].
  symmetry. apply email_in_use_true. by exists k, r.
Qed.

Lemma C3_create_duplicate_email_witness :
  let t := db (add_employee ∅ "Ann" "Engineer" "ann@x.com" (float_of_int 90000) "Eng") in
  add_employee t "Bob" "Manager" "ann@x.com" (float_of_int 110000) "Ops"
  = Outcome t (Some IntegrityError).
Proof.
  intros t.
  apply (C3_create_duplicate_email t 1
           (mkEmployee (VStr "Ann") (VStr "Engineer") (VStr "ann@x.com")
                       (VFloat (float_of_int 90000)) (VStr "Eng"))).
  - by vm_compute.
  - reflexivity.
Defined.

(** ** Update and delete *)

(** C2.  For an id that no record of the table has, [update_employee]
    (with any fields) and [delete_employee] return without an exception and
    leave the whole table as it was. *)
Theorem C2_missing_id_is_no_op (t : table) (id : Z)
    (name position email : string) (salary : float) (department : string) :
  get t id = None →
  update_employee t id name position email salary department = Outcome t None
  ∧ delete_employee t id = Outcome t None.
Proof.
  intros Hid. unfold update_employee, delete_employee. by rewrite Hid.
Qed.

Lemma C2_missing_id_is_no_op_witness :
  let t := db (add_employee ∅ "Ann" "Engineer" "ann@x.com" (float_of_int 90000) "Eng") in
  update_employee t 7 "Bob" "Manager" "bob@x.com" (float_of_int 110000) "Ops"
  = Outcome t None
  ∧ delete_employee t 7 = Outcome t None.
Proof.
  intros t. apply (C2_missing_id_is_no_op t 7). by vm_compute.
Defined.

(** What [update_employee] does to a record that exists. *)
Lemma update_employee_present (t : table) (id : Z) (r : Employee)
    (name position email : string) (salary : float) (department : string) :
  get t id = Some r →
  update_employee t id name position email salary department =
  let new := new_employee name position email salary department in
  if negb (isnan salary) && negb (email_in_use t (Some id) (VStr email))
  then Outcome (<[id := new]> t) None
  else Outcome t (Some IntegrityError).
Proof.
  intros Hid. unfold update_employee, sql_update. rewrite Hid.
  rewrite not_null_new_employee. simpl.
  by destruct (isnan salary), (email_in_use t (Some id) (VStr email)).
Qed.

(** C4, as amended.  For an id that a record of the table has and a valid
    field tuple whose email no other record holds, [update_employee]
    followed by a read of the id returns the fields given, the salary as
    the float that the table returns for it, which is equal to it (0.0 for
    -0.0); and [delete_employee] followed by a read of the id finds
    nothing.  (An email held by another record makes the update fail.) *)
Theorem C4_update_round_trip_delete_not_found (t : table) (id : Z)
    (name position email : string) (salary : float) (department : string) :
  is_Some (get t id) →
  valid_fields name position email salary department →
  email_free t (Some id) email →
  let updated := update_employee t id name position email salary department in
  let deleted := delete_employee t id in
  raised updated = None
  ∧ get (db updated) id
    = Some (mkEmployee (VStr name) (VStr position) (VStr email)
                       (VFloat (real_column salary)) (VStr department))
  ∧ float_eq (real_column salary) salary = true
  ∧ raised deleted = None
  ∧ get (db deleted) id = None.
Proof.
  intros [r Hid] Hvalid Hfree updated deleted.
  unfold updated, deleted.
  rewrite (update_employee_present _ _ _ _ _ _ _ _ Hid).
  rewrite (email_in_use_false _ _ _ Hfree).
  rewrite (new_employee_valid _ _ _ _ _ Hvalid).
  pose proof (real_column_eq salary) as Heq.
  destruct Hvalid as (_ & _ & _ & Hnan). rewrite Hnan. simpl.
  unfold delete_employee, sql_delete, get in *. rewrite Hid. simpl.
  rewrite lookup_insert_eq, lookup_delete_eq. auto.
Qed.

Lemma C4_update_round_trip_delete_not_found_witness :
  let t := db (add_employee ∅ "Ann" "Engineer" "ann@x.com" (float_of_int 90000) "Eng") in
  let updated := update_employee t 1 "Ann" "Director" "ann@y.com" (float_of_int 120000) "Board" in
  let deleted := delete_employee t 1 in
  raised updated = None
  ∧ get (db updated) 1
    = Some (mkEmployee (VStr "Ann") (VStr "Director") (VStr "ann@y.com")
                       (VFloat (float_of_int 120000)) (VStr "Board"))
  ∧ raised deleted = None
  ∧ get (db deleted) 1 = None.
Proof.
  intros t.
  destruct (C4_update_round_trip_delete_not_found t 1 "Ann" "Director"
              "ann@y.com" (float_of_int 120000) "Board")
    as (H1 & H2 & _ & H3 & H4).
  - by vm_compute; eauto.
  - repeat split; discriminate.
  - by apply email_free_check; vm_compute.
  - split; [exact H1|]. split; [exact H2|]. split; [exact H3|exact H4].
Defined.

(** C4 as stated fails for a valid field tuple whose email another record
    holds: the update of record 1 to Bob's email raises [IntegrityError],
    and a read of id 1 still returns the old fields. *)
Lemma C4_update_to_email_of_other_record :
  let t1 := db (add_employee ∅ "Ann" "Engineer" "ann@x.com" (float_of_int 90000) "Eng") in
  let t2 := db (add_employee t1 "Bob" "Manager" "bob@x.com" (float_of_int 110000) "Ops") in
  let updated := update_employee t2 1 "Ann" "Director" "bob@x.com" (float_of_int 120000) "Board" in
  is_Some (get t2 1)
  ∧ valid_fields "Ann" "Director" "bob@x.com" (float_of_int 120000) "Board"
  ∧ raised updated = Some IntegrityError
  ∧ get (db updated) 1
    = Some (mkEmployee (VStr "Ann") (VStr "Engineer") (VStr "ann@x.com")
                       (VFloat (float_of_int 90000)) (VStr "Eng"))
  ∧ get (db updated) 1
    ≠ Some (mkEmployee (VStr "Ann") (VStr "Director") (VStr "bob@x.com")
                       (VFloat (float_of_int 120000)) (VStr "Board")).
Proof.
  intros t1 t2 updated.
  split; [by vm_compute; eauto|]. split; [repeat split; discriminate|].
  split; [by vm_compute|]. split; [by vm_compute|].
  by vm_compute.
Qed.

(** C10.  Whatever the table, the id and the fields, [update_employee]
    leaves every record with another id as it was, and [delete_employee]
    removes no record but the one with the id given and leaves every
    other record, its id included, as it was: a read of any other id
    returns the same after the call as before it. *)
Theorem C10_other_records_untouched (t : table) (id : Z)
    (name position email : string) (salary : float) (department : string)
    (other : Z) :
  other ≠ id →
  get (db (update_employee t id name position email salary department)) other
  = get t other
  ∧ get (db (delete_employee t id)) other = get t other.
Proof.
  intros Hne. unfold update_employee, delete_employee, sql_update, sql_delete.
  split.
  - destruct (get t id); [|done].
    destruct (negb _); [done|]. destruct (email_in_use _ _ _); [done|].
    simpl. unfold get. by rewrite lookup_insert_ne.
  - destruct (get t id); [|done].
    simpl. unfold get. by rewrite lookup_delete_ne.
Qed.

Lemma C10_other_records_untouched_witness :
  let t1 := db (add_employee ∅ "Ann" "Engineer" "ann@x.com" (float_of_int 90000) "Eng") in
  let t2 := db (add_employee t1 "Bob" "Manager" "bob@x.com" (float_of_int 110000) "Ops") in
  get (db (update_employee t2 1 "Ann" "Director" "ann@y.com" (float_of_int 120000) "Board")) 2
  = get t2 2
  ∧ get (db (delete_employee t2 1)) 2 = get t2 2.
Proof.
  intros t1 t2. apply (C10_other_records_untouched t2 1). discriminate.
Defined.

(** X1.  The three writing calls keep the constraints of the schema: from
    a table with no NULL in a business column and no email in two
    records, [add_employee], [update_employee] and [delete_employee] lead
    to such a table, whether they succeed or raise. *)
Theorem crud_keeps_constraints (t : table) (id : Z)
    (name position email : string) (salary : float) (department : string) :
  consistent t →
  consistent (db (add_employee t name position email salary department))
  ∧ consistent (db (update_employee t id name position email salary department))
  ∧ consistent (db (delete_employee t id)).
Proof.
  intros Ht. unfold add_employee, update_employee, delete_employee.
  split; [|split].
  - apply consistent_commit; eauto using consistent_sql_insert.
  - destruct (get t id); [|done].
    apply consistent_commit; eauto using consistent_sql_update.
  - destruct (get t id); [|done].
    apply consistent_commit; [done|].
    intros t' [= <-]. by apply consistent_delete.
Qed.

Lemma crud_keeps_constraints_witness :
  consistent (db (add_employee ∅ "Ann" "Engineer" "ann@x.com" (float_of_int 90000) "Eng")).
Proof.
  apply (crud_keeps_constraints ∅ 1 "Ann" "Engineer" "ann@x.com"
           (float_of_int 90000) "Eng").
  split; intros k; intros; by rewrite lookup_empty in *.
Defined.

(** X2.  [update_employee] changes no id: the table has the same ids after
    the call as before it. *)
Theorem update_employee_keeps_ids (t : table) (id : Z)
    (name position email : string) (salary : float) (department : string) :
  dom (db (update_employee t id name position email salary department)) = dom t.
Proof.
  unfold update_employee, sql_update. destruct (get t id) as [r|] eqn:Hid; [|done].
  destruct (negb _); [done|]. destruct (email_in_use _ _ _); [done|]. simpl.
  rewrite dom_insert_L. apply (elem_of_dom_2 t) in Hid.
  apply subseteq_union_1_L. by apply singleton_subseteq_l.
Qed.

(** X3.  [delete_employee] on an id of the table returns without an
    exception and removes that record and nothing else: the records
    listed before the call are the record removed and the records listed
    after it. *)
Theorem delete_employee_removes_one (t : table) (id : Z) (r : Employee) :
  get t id = Some r →
  raised (delete_employee t id) = None
  ∧ load_employees t ≡ₚ (id, r) :: load_employees (db (delete_employee t id)).
Proof.
  intros Hid. unfold delete_employee, sql_delete. rewrite Hid. simpl.
  split; [done|]. unfold load_employees. symmetry. by apply map_to_list_delete.
Qed.

Lemma delete_employee_removes_one_witness :
  let t := db (add_employee ∅ "Ann" "Engineer" "ann@x.com" (float_of_int 90000) "Eng") in
  raised (delete_employee t 1) = None
  ∧ load_employees t
    ≡ₚ (1, mkEmployee (VStr "Ann") (VStr "Engineer") (VStr "ann@x.com")
                      (VFloat (float_of_int 90000)) (VStr "Eng"))
       :: load_employees (db (delete_employee t 1)).
Proof.
  intros t. apply (delete_employee_removes_one t 1). by vm_compute.
Defined.

(** ** Ids along a sequence of calls *)

Lemma issued_create (t : table) (name position email : string)
    (salary : float) (department : string) :
  let o := Create name position email salary department in
  (db (apply_op t o) = t ∧ issued t o = [])
  ∨ (∃ e, db (apply_op t o) = <[new_rowid t := e]> t
          ∧ issued t o = [new_rowid t]).
Proof.
  intros o. unfold issued, o, apply_op, add_employee.
  rewrite sql_insert_auto. destruct (_ && _); simpl.
  - right. eexists. split; [done|].
    rewrite dom_insert_L.
    assert (new_rowid t ∉ dom t)
      by (rewrite not_elem_of_dom; apply new_rowid_fresh).
    rewrite difference_union_distr_l_L, difference_diag_L, (right_id_L ∅ (∪)).
    rewrite difference_disjoint_L by (by apply disjoint_singleton_l).
    apply elements_singleton.
  - left. split; [done|].
    by rewrite difference_diag_L, elements_empty.
Qed.

Lemma issued_delete (t : table) (id : Z) : issued t (Delete id) = [].
Proof.
  unfold issued, apply_op, delete_employee, sql_delete.
  destruct (get t id); simpl.
  - rewrite dom_delete_L.
    assert (dom t ∖ {[id]} ∖ dom t = ∅) as ->.
    { apply elem_of_equiv_empty_L. intros j [[Hj _]%elem_of_difference Hnj]%elem_of_difference.
      by apply Hnj. }
    apply elements_empty.
  - by rewrite difference_diag_L, elements_empty.
Qed.

Lemma above_insert (t : table) (k n : Z) (e : Employee) :
  above (<[n := e]> t) k → n < k ∧ above t k.
Proof.
  intros H. split.
  - apply H. rewrite lookup_insert_eq. eauto.
  - intros j Hj. apply H. destruct (decide (n = j)) as [->|].
    + rewrite lookup_insert_eq. eauto.
    + by rewrite lookup_insert_ne.
Qed.

Lemma issued_ids_creates (ops : list op) :
  Forall is_create ops →
  ∀ t, StronglySorted Z.lt (issued_ids t ops) ∧ Forall (above t) (issued_ids t ops).
Proof.
  induction 1 as [|o ops Ho _ IH]; intros t; simpl.
  - split; constructor.
  - destruct o as [name position email salary department|]; [|done].
    destruct (issued_create t name position email salary department)
      as [[-> ->]|(e & -> & ->)]; simpl; [apply IH|].
    destruct (IH (<[new_rowid t := e]> t)) as [Hsorted Habove].
    split.
    + constructor; [done|].
      eapply Forall_impl; [exact Habove|].
      intros k Hk. by apply above_insert in Hk as [? _].
    + constructor; [apply new_rowid_above|].
      eapply Forall_impl; [exact Habove|].
      intros k Hk. by apply above_insert in Hk as [_ ?].
Qed.

Lemma keeps_counting_check (t : table) (ops : list op) :
  Forall (λ n, new_rowid (final t (take n ops)) ≤ largest_rowid)
         (seq 0 (S (length ops))) →
  keeps_counting t ops.
Proof.
  intros Hall before after ->. apply counting_new_rowid.
  rewrite Forall_forall in Hall.
  specialize (Hall (length before)). rewrite take_app_length in Hall.
  apply Hall, elem_of_seq. rewrite length_app. lia.
Qed.

(** C7, as amended.  Along every sequence of create and delete calls
    during which the ids of the table stay below the largest rowid, an id
    is issued only by a create, which issues one id and gives it to the
    record it adds; the id is above the ids of all records of the table at
    that moment, so that none of them has it.  As long as the sequence
    deletes nothing, the ids issued are strictly increasing and above
    every id that the table started with. *)
Theorem C7_issued_id_above_live_ids (t : table) (ops : list op) :
  keeps_counting t ops →
  (∀ before o after k,
     ops = before ++ o :: after →
     k ∈ issued (final t before) o →
     is_create o
     ∧ issued (final t before) o = [k]
     ∧ get (final t before) k = None
     ∧ above (final t before) k
     ∧ is_Some (get (final t (before ++ [o])) k))
  ∧ (Forall is_create ops →
     StronglySorted Z.lt (issued_ids t ops)
     ∧ Forall (above t) (issued_ids t ops)).
Proof.
  intros _. split; [|intros; by apply issued_ids_creates].
  intros before o after k _ Hk.
  assert (final t (before ++ [o]) = db (apply_op (final t before) o)) as ->.
  { clear. revert t. induction before as [|o' before IH]; intros t; simpl;
      [done|apply IH]. }
  destruct o as [name position email salary department|id].
  - destruct (issued_create (final t before) name position email salary
                department) as [[_ Hnone]|(e & Hdb & Hone)].
    + rewrite Hnone in Hk. by apply elem_of_nil in Hk.
    + rewrite Hone in Hk |- *. apply list_elem_of_singleton in Hk as ->.
      rewrite Hdb. unfold get. rewrite lookup_insert_eq.
      split; [done|]. split; [done|]. split; [apply new_rowid_fresh|].
      split; [apply new_rowid_above|eauto].
  - rewrite issued_delete in Hk. by apply elem_of_nil in Hk.
Qed.

Lemma C7_issued_id_above_live_ids_witness :
  let ops := [Create "Ann" "Engineer" "ann@x.com" (float_of_int 90000) "Eng";
              Create "Bob" "Manager" "bob@x.com" (float_of_int 110000) "Ops"] in
  (above (final ∅ (take 1 ops)) 2 ∧ get (final ∅ ops) 2 ≠ None)
  ∧ StronglySorted Z.lt (issued_ids ∅ ops).
Proof.
  intros ops. destruct (C7_issued_id_above_live_ids ∅ ops) as [Hstep Hsorted].
  { apply keeps_counting_check. by_evaluation. }
  split.
  - destruct (Hstep (take 1 ops) (Create "Bob" "Manager" "bob@x.com"
                                    (float_of_int 110000) "Ops") [] 2)
      as (_ & _ & _ & Habove & Hget).
    + reflexivity.
    + by vm_compute; left.
    + split; [exact Habove|]. destruct Hget as [r Hr]. simpl in Hr.
      intros Hnone. simpl in Hnone. congruence.
  - apply Hsorted. repeat constructor.
Defined.

(** C7 as stated fails where it says that ids increase and are never
    reused: in the sequence create Ann, create Bob, create Cyd, delete 3,
    delete 2, create Dan, the store issues 1, 2, 3 and then 2 again, to
    Dan. *)
Lemma C7_id_reused_after_delete :
  let ops := [Create "Ann" "Engineer" "ann@x.com" (float_of_int 90000) "Eng";
              Create "Bob" "Manager" "bob@x.com" (float_of_int 110000) "Ops";
              Create "Cyd" "Clerk" "cyd@x.com" (float_of_int 50000) "Ops";
              Delete 3;
              Delete 2;
              Create "Dan" "Clerk" "dan@x.com" (float_of_int 50000) "Ops"] in
  issued_ids ∅ ops = [1; 2; 3; 2]
  ∧ name <$> get (final ∅ (take 2 ops)) 2 = Some (VStr "Bob")
  ∧ name <$> get (final ∅ ops) 2 = Some (VStr "Dan").
Proof. intros ops. split; [|split]; by vm_compute. Qed.

(** ** The bulk loader *)

Lemma append_rows_spec (es : list Employee) :
  ∀ (t : table) (k : Z),
    new_rowid t = k →
    (∀ i e, es !! i = Some e → append_rows t es !! (k + Z.of_nat i) = Some e)
    ∧ (∀ j, j < k → append_rows t es !! j = t !! j)
    ∧ size (append_rows t es) = (size t + length es)%nat.
Proof.
  induction es as [|e es IH]; intros t k Hk; simpl.
  - split; [by intros i e Hi; rewrite lookup_nil in Hi|]. split; [done|lia].
  - pose proof (new_rowid_above t) as Habove. rewrite Hk in *.
    destruct (IH (<[k := e]> t) (k + 1) (new_rowid_insert _ _ _ Habove))
      as (Hnew & Hold & Hsize).
    split; [|split].
    + intros [|i] e' Hi; simpl in Hi.
      * injection Hi as <-. rewrite Z.add_0_r, Hold by lia.
        apply lookup_insert_eq.
      * replace (k + Z.of_nat (S i)) with (k + 1 + Z.of_nat i) by lia.
        by apply Hnew.
    + intros j Hj. rewrite Hold by lia. apply lookup_insert_ne. lia.
    + rewrite Hsize, map_size_insert_None by (by apply above_fresh). lia.
Qed.

Lemma email_in_use_insert_false (t : table) (k : Z) (e : Employee) (v : value) :
  email e ≠ v →
  email_in_use t None v = false →
  email_in_use (<[k := e]> t) None v = false.
Proof.
  intros He Huse. apply not_true_iff_false in Huse. apply not_true_iff_false.
  intros (j & r & Hj & _ & Hr)%email_in_use_true.
  destruct (decide (k = j)) as [->|Hne].
  - rewrite lookup_insert_eq in Hj. congruence.
  - rewrite lookup_insert_ne in Hj by done.
    apply Huse, email_in_use_true. by exists j, r.
Qed.

Lemma rowid_cell_no_column (cols : list string) (r : list value) :
  Forall (λ c, names_rowid c = false) cols → rowid_cell cols r = VNone.
Proof.
  intros Hcols. unfold rowid_cell.
  enough (∀ found, last_rowid_cell cols r found = found) by done.
  revert r. induction Hcols as [|c cols Hc _ IH]; intros r found; simpl; [done|].
  by rewrite Hc.
Qed.

Lemma executemany_app {A} (statement : table → A → result table)
    (l1 l2 : list A) :
  ∀ t, executemany statement t (l1 ++ l2)
       = match raised (executemany statement t l1) with
         | None => executemany statement (db (executemany statement t l1)) l2
         | Some _ => executemany statement t l1
         end.
Proof.
  induction l1 as [|a l1 IH]; intros t; simpl; [done|].
  destruct (statement t a) as [e|t']; simpl; [done|]. apply IH.
Qed.


Lemma Exists_first {A} (P : A → Prop) `{∀ x, Decision (P x)} (l : list A) :
  Exists P l →
  ∃ before x after, l = before ++ x :: after ∧ Forall (λ y, ¬ P y) before ∧ P x.
Proof.
  induction l as [|a l IH]; intros Hl; [by apply Exists_nil in Hl|].
  destruct (decide (P a)) as [Ha|Ha].
  - exists [], a, l. by repeat split.
  - apply Exists_cons in Hl as [Hl|Hl]; [done|].
    destruct (IH Hl) as (before & x & after & -> & Hbefore & Hx).
    exists (a :: before), x, after. split; [done|]. split; [|done].
    by constructor.
Qed.

Section loader_properties.

Context `{Conversions}.

Lemma insert_row_auto (cols : list string) (t : table) (r : list value) :
  rowid_cell cols r = VNone →
  insert_row cols t r = sql_insert t None (row_employee cols r).
Proof. intros Hid. unfold insert_row. by rewrite Hid. Qed.

Lemma insert_row_raises (cols : list string) (t : table) (r : list value) (e : exn) :
  insert_row cols t r = inl e → e = IntegrityError.
Proof.
  unfold insert_row, rowid_of, sql_insert.
  repeat (case_match; simpl); try discriminate; by intros [= <-].
Qed.

Lemma insert_row_missing_salary (cols : list string) (t : table) (r : list value) :
  missing (cell cols r "salary") →
  insert_row cols t r = inl IntegrityError.
Proof.
  intros Hmiss. destruct (insert_row cols t r) as [e|t'] eqn:E.
  - by rewrite (insert_row_raises _ _ _ _ E).
  - exfalso. revert E. unfold insert_row.
    destruct (rowid_of _) as [|rowid]; simpl; [done|].
    unfold sql_insert.
    replace (not_null (row_employee cols r)) with false; [done|].
    symmetry. apply bool_decide_eq_false. unfold row_employee, bound; simpl.
    unfold missing in Hmiss. rewrite Hmiss. simpl.
    by intros (_ & _ & _ & Hsalary & _).
Qed.

Lemma executemany_insert_rows (cols : list string) (rows : list (list value)) :
  ∀ t : table,
    Forall (λ r, rowid_cell cols r = VNone
                 ∧ not_null (row_employee cols r) = true) rows →
    NoDup ((λ r, email (row_employee cols r)) <$> rows) →
    Forall (λ r, email_in_use t None (email (row_employee cols r)) = false) rows →
    executemany (insert_row cols) t rows
    = Outcome (append_rows t (row_employee cols <$> rows)) None.
Proof.
  induction rows as [|r rows IH]; intros t Hrows Hdup Hfree; [done|].
  apply Forall_cons in Hrows as [[Hid Hnull] Hrows].
  apply NoDup_cons in Hdup as [Hr Hdup].
  apply Forall_cons in Hfree as [Hfree_r Hfree].
  simpl. rewrite insert_row_auto, sql_insert_auto, Hnull, Hfree_r by done.
  simpl. apply IH; [done..|].
  apply Forall_forall. intros r' Hr'.
  apply email_in_use_insert_false.
  - intros Heq. apply Hr, list_elem_of_fmap. by exists r'.
  - by apply (proj1 (Forall_forall _ _) Hfree).
Qed.


Lemma new_rowid_empty : new_rowid (∅ : table) = 1.
Proof. reflexivity. Qed.

(** A frame whose header is the five required columns, in any order. *)
Lemma exact_columns (cols : list string) :
  cols ≡ₚ required_columns →
  bool_decide (required_columns ⊆ cols) = true
  ∧ forallb is_table_column cols = true
  ∧ ∀ r, rowid_cell cols r = VNone.
Proof.
  intros Hcols. split; [|split].
  - apply bool_decide_eq_true. by rewrite Hcols.
  - apply forallb_forall. intros c Hc%list_elem_of_In.
    rewrite Hcols in Hc. revert c Hc. apply Forall_forall.
    by repeat constructor.
  - intros r. apply rowid_cell_no_column.
    rewrite Hcols. by repeat constructor.
Qed.

Lemma to_sql_known_columns (df : DataFrame) (t : table) :
  int64_frame df = true →
  forallb is_table_column (columns df) = true →
  to_sql df t = executemany (insert_row (columns df)) t (rows df).
Proof.
  intros Hint Hcols. unfold to_sql. rewrite Hint, Hcols. simpl.
  by destruct (rows df).
Qed.

Lemma text_row_employee (cols : list string) (r : list value) :
  text_row cols r →
  name (row_employee cols r) = cell cols r "name"
  ∧ position (row_employee cols r) = cell cols r "position"
  ∧ email (row_employee cols r) = cell cols r "email"
  ∧ department (row_employee cols r) = cell cols r "department".
Proof.
  intros ([? Hn] & [? Hp] & [? He] & [? Hd]). unfold row_employee, bound; simpl.
  by rewrite Hn, Hp, He, Hd.
Qed.

Lemma real_affinity_not_null (v : value) :
  v ≠ VNone → real_affinity v ≠ VNone.
Proof.
  destruct v as [|z|x|s]; simpl; try done.
  intros _. unfold real_affinity. by repeat case_match.
Qed.

Lemma not_null_row_employee (cols : list string) (r : list value) :
  text_row cols r →
  ¬ missing (cell cols r "salary") →
  not_null (row_employee cols r) = true.
Proof.
  intros Htext Hsalary. apply bool_decide_eq_true.
  destruct (text_row_employee _ _ Htext) as (-> & -> & -> & ->).
  destruct Htext as ([? ->] & [? ->] & [? ->] & [? ->]).
  repeat split; try done. by apply real_affinity_not_null.
Qed.

(** The rows of a CSV with exactly the five required columns, texts in the
    text columns, pairwise distinct emails and no missing salary are
    inserted one after the other, under the ids that the table issues. *)
Lemma executemany_exact_columns (cols : list string) (rows : list (list value)) :
  cols ≡ₚ required_columns →
  Forall (text_row cols) rows →
  NoDup ((λ r, cell cols r "email") <$> rows) →
  Forall (λ r, ¬ missing (cell cols r "salary")) rows →
  executemany (insert_row cols) ∅ rows
  = Outcome (append_rows ∅ (row_employee cols <$> rows)) None.
Proof.
  intros Hcols Htext Hdup Hsalary.
  destruct (exact_columns _ Hcols) as (_ & _ & Hid).
  apply executemany_insert_rows.
  - apply Forall_forall. intros r Hr. split; [apply Hid|].
    apply not_null_row_employee.
    + by apply (proj1 (Forall_forall _ _) Htext).
    + by apply (proj1 (Forall_forall _ _) Hsalary).
  - erewrite (Forall_fmap_ext_1 _ (λ r, cell cols r "email")); [done|].
    eapply Forall_impl; [exact Htext|]. intros r Hr.
    by destruct (text_row_employee _ _ Hr) as (_ & _ & -> & _).
  - apply Forall_forall. intros r _. apply not_true_iff_false.
    intros (k & e & Hk & _)%email_in_use_true. by rewrite lookup_empty in Hk.
Qed.

(** The import of a CSV with exactly the five required columns, integers
    of 64 bits, texts in the text columns and pairwise distinct emails: it
    succeeds if no salary cell is missing, and if one is, it stops at the
    first row that misses its salary and leaves the rows before it in the
    table. *)
Lemma load_exact_columns (df : DataFrame) (t : table) :
  columns df ≡ₚ required_columns →
  int64_frame df = true →
  Forall (text_row (columns df)) (rows df) →
  NoDup ((λ r, cell (columns df) r "email") <$> rows df) →
  (Forall (λ r, ¬ missing (cell (columns df) r "salary")) (rows df) →
   load_csv_to_db (Some (Csv df)) t
   = (Outcome (append_rows ∅ (row_employee (columns df) <$> rows df)) None,
      Loaded))
  ∧ (∀ before r after,
       rows df = before ++ r :: after →
       Forall (λ r, ¬ missing (cell (columns df) r "salary")) before →
       missing (cell (columns df) r "salary") →
       load_csv_to_db (Some (Csv df)) t
       = (Outcome (append_rows ∅ (row_employee (columns df) <$> before)) None,
          ErrorLoadingCSV IntegrityError)).
Proof.
  intros Hcols Hint Htext Hdup.
  destruct (exact_columns _ Hcols) as (Hreq & Hknown & Hid).
  unfold load_csv_to_db; simpl. rewrite Hreq, to_sql_known_columns by done.
  split.
  - intros Hsalary. by rewrite executemany_exact_columns.
  - intros before r after Hrows Hbefore Hr. rewrite Hrows in *.
    apply Forall_app in Htext as [Htext _].
    rewrite fmap_app in Hdup. apply NoDup_app in Hdup as (Hdup & _ & _).
    change (before ++ r :: after) with (before ++ [r] ++ after).
    rewrite executemany_app, executemany_exact_columns by done. simpl.
    by rewrite insert_row_missing_salary.
Qed.

Lemma consistent_empty : consistent (∅ : table).
Proof. split; intros k; intros; by rewrite lookup_empty in *. Qed.

Lemma consistent_executemany (cols : list string) (rows : list (list value)) :
  ∀ t : table,
    consistent t → consistent (db (executemany (insert_row cols) t rows)).
Proof.
  induction rows as [|r rows IH]; intros t Ht; simpl; [done|].
  destruct (insert_row cols t r) as [e|t1] eqn:E; simpl; [done|].
  apply IH. revert E. unfold insert_row.
  destruct (rowid_of _) as [|rowid]; simpl; [done|].
  by apply consistent_sql_insert.
Qed.

Lemma consistent_to_sql (df : DataFrame) (t : table) :
  consistent t → consistent (db (to_sql df t)).
Proof.
  intros Ht. unfold to_sql. destruct (int64_frame df); simpl; [|done].
  destruct (rows df); [done|]. destruct (forallb _ _); [|done].
  by apply consistent_executemany.
Qed.

(** X4.  Nothing escapes [load_csv_to_db]: whatever the file and the
    table, the call returns without an exception. *)
Theorem load_csv_to_db_never_raises (fs : option csv_file) (t : table) :
  raised (load_csv_to_db fs t).1 = None.
Proof.
  unfold load_csv_to_db. destruct fs as [[|df]|]; simpl; [done| |done].
  case_bool_decide; [|done]. by destruct (raised (to_sql df _)).
Qed.

(** X5.  The import is a replacement, not a merge: for a CSV that has the
    five required columns, the table and the line printed after the call
    do not depend on the table before it. *)
Theorem load_csv_to_db_replaces (df : DataFrame) (t1 t2 : table) :
  required_columns ⊆ columns df →
  load_csv_to_db (Some (Csv df)) t1 = load_csv_to_db (Some (Csv df)) t2.
Proof.
  intros Hcols. unfold load_csv_to_db; simpl.
  by rewrite bool_decide_eq_true_2.
Qed.

(** X6.  [load_csv_to_db] keeps the constraints of the schema: whatever
    the file, from a table with no NULL in a business column and no email
    in two records it leads to such a table. *)
Theorem load_csv_to_db_keeps_constraints (fs : option csv_file) (t : table) :
  consistent t → consistent (db (load_csv_to_db fs t).1).
Proof.
  intros Ht. unfold load_csv_to_db. destruct fs as [[|df]|]; simpl; [done| |done].
  case_bool_decide; [|done]. simpl.
  pose proof (consistent_to_sql df ∅ consistent_empty).
  by destruct (raised (to_sql df ∅)).
Qed.

(** C6.  Whatever the table, when there is no file at the CSV path, or the
    CSV lacks one of the five required columns, [load_csv_to_db] returns
    without an exception and the table is what it was; the loader has
    printed that the file was not found, or that columns are missing. *)
Theorem C6_no_file_or_missing_column (fs : option csv_file) (t : table) :
  fs = None
  ∨ (∃ df c, fs = Some (Csv df) ∧ c ∈ required_columns ∧ c ∉ columns df) →
  raised (load_csv_to_db fs t).1 = None
  ∧ db (load_csv_to_db fs t).1 = t
  ∧ (load_csv_to_db fs t).2
    = match fs with Some _ => MissingColumns | None => FileNotFound end.
Proof.
  intros [->|(df & c & -> & Hc & Hdf)]; [done|].
  unfold load_csv_to_db; simpl.
  rewrite bool_decide_eq_false_2; [done|].
  intros Hsub. by apply Hdf, Hsub.
Qed.

(** The records that well-formed rows spell are the records that the
    INSERT stores for them. *)
Lemma well_formed_rows (cols : list string) (rows : list (list value))
    (emps : list Employee) :
  Forall2 (well_formed_row cols) rows emps →
  row_employee cols <$> rows = emps
  ∧ Forall (text_row cols) rows
  ∧ (λ r, cell cols r "email") <$> rows = email <$> emps
  ∧ Forall (λ r, ¬ missing (cell cols r "salary")) rows.
Proof.
  induction 1 as [|r e rows emps Hr _ IH]; [done|].
  destruct IH as (IH1 & IH2 & IH3 & IH4).
  destruct Hr as ([? Hn] & [? Hp] & [? He] & [? Hd]
                  & Hcn & Hcp & Hce & Hcd & Hs).
  assert (text_row cols r) as Htext.
  { unfold text_row. rewrite Hcn, Hcp, Hce, Hcd, Hn, Hp, He, Hd.
    unfold is_text. eauto 10. }
  rewrite !fmap_cons, IH1, IH3, Hce.
  split; [|split; [|split]]; [|by constructor|done|constructor; [|done]].
  - f_equal. destruct (text_row_employee _ _ Htext) as (En & Ep & Ee & Ed).
    destruct e as [n p m s d]; simpl in *.
    rewrite <- Hcn, <- Hcp, <- Hce, <- Hcd, <- En, <- Ep, <- Ee, <- Ed.
    unfold row_employee at 1; simpl. f_equal.
    unfold bound. destruct Hs as [y Hy|z Hz]; simpl; [|done].
    unfold bind_float. by rewrite Hy.
  - unfold missing. destruct Hs as [y Hy|z Hz]; simpl; [|done].
    unfold bind_float. by rewrite Hy.
Qed.

(** C5, as amended.  For a CSV whose columns are exactly the five required
    ones, with [n] well-formed rows whose emails are pairwise distinct,
    each of two runs of the loader in sequence succeeds and leaves the
    same table: exactly [n] records, the record of the CSV's row [i] under
    id [i + 1], whatever the table held before the first run.  A row is
    well formed when it has texts in the four text columns and a number
    (a float, or an integer of 64 bits) as its salary; its record holds
    these texts and the float that the table returns for the salary. *)
Theorem C5_import_twice (df : DataFrame) (emps : list Employee) (t : table) :
  columns df ≡ₚ required_columns →
  int64_frame df = true →
  Forall2 (well_formed_row (columns df)) (rows df) emps →
  NoDup (email <$> emps) →
  let first := load_csv_to_db (Some (Csv df)) t in
  let second := load_csv_to_db (Some (Csv df)) (db first.1) in
  first.2 = Loaded
  ∧ second = first
  ∧ raised first.1 = None
  ∧ size (db first.1) = length (rows df)
  ∧ ∀ i e, emps !! i = Some e → get (db first.1) (Z.of_nat i + 1) = Some e.
Proof.
  intros Hcols Hint Hrows Hdup first second.
  destruct (well_formed_rows _ _ _ Hrows) as (Hemps & Htext & Hemails & Hsalary).
  rewrite <- Hemails in Hdup.
  destruct (load_exact_columns df t Hcols Hint Htext Hdup) as [Hfirst _].
  destruct (load_exact_columns df (db first.1) Hcols Hint Htext Hdup)
    as [Hsecond _].
  specialize (Hfirst Hsalary). specialize (Hsecond Hsalary).
  unfold second, first in *. rewrite Hsecond, Hfirst, Hemps. simpl.
  destruct (append_rows_spec emps ∅ 1 new_rowid_empty) as (Hnew & _ & Hsize).
  split; [done|]. split; [done|]. split; [done|]. split.
  - rewrite Hsize, map_size_empty, <- Hemps, length_fmap. done.
  - intros i e Hi. unfold get. rewrite Z.add_comm. by apply Hnew.
Qed.

(** C8, as amended.  The loader does not ask that a salary parse as a
    float.  For a CSV whose columns are exactly the five required ones,
    with integers of 64 bits, texts in the text columns and pairwise
    distinct emails: if no row's salary cell is missing, the import
    succeeds and the table holds one record per row, whatever the salary
    cells hold (a text that is no number is stored as that text); if some
    row's salary cell is missing, the import fails with [IntegrityError]
    at the first such row: the loader prints the error, the rows before
    that row are in the table, and that row and the rows after it are
    not. *)
Theorem C8_import_fails_on_missing_salary (df : DataFrame) (t : table) :
  columns df ≡ₚ required_columns →
  int64_frame df = true →
  Forall (text_row (columns df)) (rows df) →
  NoDup ((λ r, cell (columns df) r "email") <$> rows df) →
  let out := load_csv_to_db (Some (Csv df)) t in
  (Forall (λ r, ¬ missing (cell (columns df) r "salary")) (rows df) →
   out.2 = Loaded
   ∧ raised out.1 = None
   ∧ size (db out.1) = length (rows df)
   ∧ ∀ i r, rows df !! i = Some r →
       get (db out.1) (Z.of_nat i + 1) = Some (row_employee (columns df) r))
  ∧ (Exists (λ r, missing (cell (columns df) r "salary")) (rows df) →
     out.2 = ErrorLoadingCSV IntegrityError
     ∧ raised out.1 = None
     ∧ (size (db out.1) < length (rows df))%nat)
  ∧ (∀ before r after,
       rows df = before ++ r :: after →
       Forall (λ r, ¬ missing (cell (columns df) r "salary")) before →
       missing (cell (columns df) r "salary") →
       size (db out.1) = length before
       ∧ ∀ i r', before !! i = Some r' →
           get (db out.1) (Z.of_nat i + 1) = Some (row_employee (columns df) r')).
Proof.
  intros Hcols Hint Htext Hdup out.
  destruct (load_exact_columns df t Hcols Hint Htext Hdup) as [Hok Hfail].
  assert (∀ rows : list (list value),
            size (append_rows ∅ (row_employee (columns df) <$> rows))
            = length rows
            ∧ ∀ i r, rows !! i = Some r →
                get (append_rows ∅ (row_employee (columns df) <$> rows))
                    (Z.of_nat i + 1)
                = Some (row_employee (columns df) r)) as Hrows.
  { intros rows.
    destruct (append_rows_spec (row_employee (columns df) <$> rows) ∅ 1
                new_rowid_empty) as (Hnew & _ & Hsize).
    split; [by rewrite Hsize, map_size_empty, length_fmap|].
    intros i r Hi. unfold get. rewrite Z.add_comm. apply Hnew.
    by rewrite list_lookup_fmap, Hi. }
  split; [|split].
  - intros Hsalary. unfold out. rewrite (Hok Hsalary). simpl.
    split; [done|]. split; [done|]. apply Hrows.
  - intros (before & r & after & Hdf & Hbefore & Hr)%Exists_first;
      [|intros r; unfold missing; apply _].
    unfold out. rewrite (Hfail _ _ _ Hdf Hbefore Hr). simpl.
    split; [done|]. split; [done|].
    rewrite (proj1 (Hrows before)), Hdf, length_app. simpl. lia.
  - intros before r after Hdf Hbefore Hr.
    unfold out. rewrite (Hfail _ _ _ Hdf Hbefore Hr). simpl. apply Hrows.
Qed.

(** C9 fails on the code.  A CSV with the five required columns and one
    more, [age], passes the column check; the table is dropped and created
    anew; the INSERT of [to_sql] names [age], which the table lacks, and
    raises [OperationalError].  The loader prints the error and the table
    is left empty: the record it held is lost and no row is imported. *)
Lemma C9_extra_column_import_fails :
  let t := db (add_employee ∅ "Ann" "Engineer" "ann@x.com" (float_of_int 90000) "Eng") in
  let df := mkDataFrame ["name"; "position"; "email"; "salary"; "department"; "age"]
              [[VStr "Bob"; VStr "Manager"; VStr "bob@x.com";
                VFloat (float_of_int 110000); VStr "Ops"; VInt 41]] in
  required_columns ⊆ columns df
  ∧ size t = 1%nat
  ∧ load_csv_to_db (Some (Csv df)) t
    = (Outcome ∅ None, ErrorLoadingCSV OperationalError).
Proof.
  intros t df. split; [|split].
  - apply (bool_decide_unpack (required_columns ⊆ columns df)). by vm_compute.
  - by vm_compute.
  - reflexivity.
Qed.

End loader_properties.

(** ** The bulk loader on concrete files *)

Lemma C6_no_file_or_missing_column_witness :
  let t := db (add_employee ∅ "Ann" "Engineer" "ann@x.com" (float_of_int 90000) "Eng") in
  let df := mkDataFrame ["name"; "position"; "email"; "department"]
              [[VStr "Bob"; VStr "Manager"; VStr "bob@x.com"; VStr "Ops"]] in
  let out := @load_csv_to_db example_conversions (Some (Csv df)) t in
  raised out.1 = None ∧ db out.1 = t ∧ out.2 = MissingColumns.
Proof.
  intros t df.
  apply (@C6_no_file_or_missing_column example_conversions (Some (Csv df)) t).
  right. exists df, "salary". split; [reflexivity|]. split; by_evaluation.
Defined.

Lemma C5_import_twice_witness :
  let df := mkDataFrame ["name"; "position"; "email"; "salary"; "department"]
              [[VStr "Alice"; VStr "Engineer"; VStr "alice@x.com"; VInt 90000; VStr "Eng"];
               [VStr "Bob"; VStr "Manager"; VStr "bob@x.com"; VInt 110000; VStr "Ops"]] in
  let alice := mkEmployee (VStr "Alice") (VStr "Engineer") (VStr "alice@x.com")
                          (VFloat (float_of_int 90000)) (VStr "Eng") in
  let bob := mkEmployee (VStr "Bob") (VStr "Manager") (VStr "bob@x.com")
                        (VFloat (float_of_int 110000)) (VStr "Ops") in
  let first := @load_csv_to_db example_conversions (Some (Csv df)) ∅ in
  let second := @load_csv_to_db example_conversions (Some (Csv df)) (db first.1) in
  first.2 = Loaded ∧ second = first ∧ size (db first.1) = 2%nat
  ∧ get (db first.1) 1 = Some alice ∧ get (db first.1) 2 = Some bob.
Proof.
  intros df alice bob.
  destruct (@C5_import_twice example_conversions df [alice; bob] ∅)
    as (Hloaded & Hsame & _ & Hsize & Hrows).
  - reflexivity.
  - reflexivity.
  - well_formed_rows.
  - by_evaluation.
  - split; [exact Hloaded|]. split; [exact Hsame|]. split; [exact Hsize|].
    split; [exact (Hrows 0%nat alice eq_refl)|exact (Hrows 1%nat bob eq_refl)].
Defined.

(** C5 as stated fails for a CSV with the five required columns and two
    well-formed rows that share an email: the INSERT of the second row
    violates UNIQUE (email), and the run leaves one row instead of two.  It
    fails as well for a CSV with a column beyond the five: the INSERT
    names a column that the table lacks, and the run leaves no row instead
    of one. *)
Lemma C5_repeated_email_or_extra_column :
  let same_email :=
    mkDataFrame ["name"; "position"; "email"; "salary"; "department"]
      [[VStr "Alice"; VStr "Engineer"; VStr "alice@x.com"; VInt 90000; VStr "Eng"];
       [VStr "Bob"; VStr "Manager"; VStr "alice@x.com"; VInt 110000; VStr "Ops"]] in
  let extra_column :=
    mkDataFrame ["name"; "position"; "email"; "salary"; "department"; "age"]
      [[VStr "Alice"; VStr "Engineer"; VStr "alice@x.com"; VInt 90000; VStr "Eng";
        VInt 41]] in
  let alice := mkEmployee (VStr "Alice") (VStr "Engineer") (VStr "alice@x.com")
                          (VFloat (float_of_int 90000)) (VStr "Eng") in
  let bob := mkEmployee (VStr "Bob") (VStr "Manager") (VStr "alice@x.com")
                        (VFloat (float_of_int 110000)) (VStr "Ops") in
  Forall2 (well_formed_row (columns same_email)) (rows same_email) [alice; bob]
  ∧ length (rows same_email) = 2%nat
  ∧ (∀ (conv : Conversions) (t : table),
       load_csv_to_db (Some (Csv same_email)) t
       = (Outcome {[1 := alice]} None, ErrorLoadingCSV IntegrityError))
  ∧ size ({[1 := alice]} : table) = 1%nat
  ∧ Forall2 (well_formed_row (columns extra_column)) (rows extra_column) [alice]
  ∧ length (rows extra_column) = 1%nat
  ∧ (∀ (conv : Conversions) (t : table),
       load_csv_to_db (Some (Csv extra_column)) t
       = (Outcome ∅ None, ErrorLoadingCSV OperationalError)).
Proof.
  intros same_email extra_column alice bob.
  split; [well_formed_rows|]. split; [reflexivity|].
  split; [reflexivity|]. split; [reflexivity|].
  split; [well_formed_rows|]. split; reflexivity.
Qed.

Lemma C8_import_fails_on_missing_salary_witness :
  let text_salary :=
    mkDataFrame ["name"; "position"; "email"; "salary"; "department"]
      [[VStr "Ann"; VStr "Engineer"; VStr "ann@x.com"; VStr "abc"; VStr "Eng"]] in
  let no_salary :=
    mkDataFrame ["name"; "position"; "email"; "salary"; "department"]
      [[VStr "Ann"; VStr "Engineer"; VStr "ann@x.com";
        VFloat (float_of_int 90000); VStr "Eng"];
       [VStr "Bob"; VStr "Manager"; VStr "bob@x.com"; VFloat S754_nan; VStr "Ops"];
       [VStr "Cyd"; VStr "Clerk"; VStr "cyd@x.com";
        VFloat (float_of_int 50000); VStr "Ops"]] in
  let ann := mkEmployee (VStr "Ann") (VStr "Engineer") (VStr "ann@x.com")
                        (VFloat (float_of_int 90000)) (VStr "Eng") in
  let imported := @load_csv_to_db example_conversions (Some (Csv text_salary)) ∅ in
  let stopped := @load_csv_to_db example_conversions (Some (Csv no_salary)) ∅ in
  (imported.2 = Loaded
   ∧ get (db imported.1) 1
     = Some (mkEmployee (VStr "Ann") (VStr "Engineer") (VStr "ann@x.com")
                        (VStr "abc") (VStr "Eng")))
  ∧ (stopped.2 = ErrorLoadingCSV IntegrityError
     ∧ size (db stopped.1) = 1%nat
     ∧ get (db stopped.1) 1 = Some ann).
Proof.
  intros text_salary no_salary ann. split.
  - destruct (@C8_import_fails_on_missing_salary example_conversions
                text_salary ∅) as (Hok & _ & _).
    + reflexivity.
    + reflexivity.
    + well_formed_rows.
    + by_evaluation.
    + destruct Hok as (Hloaded & _ & _ & Hrows).
      * repeat constructor. discriminate.
      * split; [exact Hloaded|]. exact (Hrows 0%nat _ eq_refl).
  - destruct (@C8_import_fails_on_missing_salary example_conversions
                no_salary ∅) as (_ & Hfail & Hbefore).
    + reflexivity.
    + reflexivity.
    + well_formed_rows.
    + by_evaluation.
    + destruct Hfail as (Herror & _ & _).
      * apply Exists_cons_tl, Exists_cons_hd. reflexivity.
      * destruct (Hbefore
                    [[VStr "Ann"; VStr "Engineer"; VStr "ann@x.com";
                      VFloat (float_of_int 90000); VStr "Eng"]]
                    [VStr "Bob"; VStr "Manager"; VStr "bob@x.com";
                     VFloat S754_nan; VStr "Ops"]
                    [[VStr "Cyd"; VStr "Clerk"; VStr "cyd@x.com";
                      VFloat (float_of_int 50000); VStr "Ops"]])
          as [Hsize Hrows].
        -- reflexivity.
        -- repeat constructor. discriminate.
        -- reflexivity.
        -- split; [exact Herror|]. split; [exact Hsize|].
           exact (Hrows 0%nat _ eq_refl).
Defined.

(** C8 as stated fails in both directions, and where it says that a
    failed import serves no imported data.  A CSV whose one salary is the
    text "abc", which is no number, is imported: the loader prints that
    the data was loaded and the table holds the row, its salary the text
    "abc".  A CSV whose second row has no salary is imported up to that
    row: the loader prints the error, and the first row is in the table.
    And a CSV whose salaries are all floats is not imported in full when
    two of its rows share an email (the first of them is in the table, the
    second is not), and not at all when its one row has no name. *)
Lemma C8_text_salary_imported_float_salary_rejected :
  let text_salary :=
    mkDataFrame ["name"; "position"; "email"; "salary"; "department"]
      [[VStr "Ann"; VStr "Engineer"; VStr "ann@x.com"; VStr "abc"; VStr "Eng"]] in
  let no_salary :=
    mkDataFrame ["name"; "position"; "email"; "salary"; "department"]
      [[VStr "Ann"; VStr "Engineer"; VStr "ann@x.com";
        VFloat (float_of_int 90000); VStr "Eng"];
       [VStr "Bob"; VStr "Manager"; VStr "bob@x.com"; VFloat S754_nan; VStr "Ops"]] in
  let same_email :=
    mkDataFrame ["name"; "position"; "email"; "salary"; "department"]
      [[VStr "Ann"; VStr "Engineer"; VStr "ann@x.com";
        VFloat (float_of_int 90000); VStr "Eng"];
       [VStr "Bob"; VStr "Manager"; VStr "ann@x.com";
        VFloat (float_of_int 110000); VStr "Ops"]] in
  let no_name :=
    mkDataFrame ["name"; "position"; "email"; "salary"; "department"]
      [[VNone; VStr "Engineer"; VStr "ann@x.com";
        VFloat (float_of_int 90000); VStr "Eng"]] in
  let ann := mkEmployee (VStr "Ann") (VStr "Engineer") (VStr "ann@x.com")
                        (VFloat (float_of_int 90000)) (VStr "Eng") in
  (∀ (conv : Conversions) (t : table),
     number_of_text "abc" = None →
     load_csv_to_db (Some (Csv text_salary)) t
     = (Outcome {[1 := mkEmployee (VStr "Ann") (VStr "Engineer")
                         (VStr "ann@x.com") (VStr "abc") (VStr "Eng")]} None,
        Loaded))
  ∧ (∀ (conv : Conversions) (t : table),
       load_csv_to_db (Some (Csv no_salary)) t
       = (Outcome {[1 := ann]} None, ErrorLoadingCSV IntegrityError))
  ∧ (∀ (conv : Conversions) (t : table),
       load_csv_to_db (Some (Csv same_email)) t
       = (Outcome {[1 := ann]} None, ErrorLoadingCSV IntegrityError))
  ∧ (∀ (conv : Conversions) (t : table),
       load_csv_to_db (Some (Csv no_name)) t
       = (Outcome ∅ None, ErrorLoadingCSV IntegrityError)).
Proof.
  intros text_salary no_salary same_email no_name ann.
  split; [|split; [|split]].
  - intros conv t Habc.
    destruct (load_exact_columns text_salary t) as [Hok _].
    + reflexivity.
    + reflexivity.
    + well_formed_rows.
    + by_evaluation.
    + rewrite Hok by (repeat constructor; discriminate).
      do 2 f_equal.
      change (row_employee (columns text_salary) <$> rows text_salary)
        with [mkEmployee (VStr "Ann") (VStr "Engineer") (VStr "ann@x.com")
                (real_affinity (VStr "abc")) (VStr "Eng")].
      unfold real_affinity. rewrite Habc. reflexivity.
  - reflexivity.
  - reflexivity.
  - reflexivity.
Qed.

Lemma load_csv_to_db_replaces_witness :
  let df := mkDataFrame ["name"; "position"; "email"; "salary"; "department"]
              [[VStr "Bob"; VStr "Manager"; VStr "bob@x.com"; VInt 110000; VStr "Ops"]] in
  let t := db (add_employee ∅ "Ann" "Engineer" "ann@x.com" (float_of_int 90000) "Eng") in
  @load_csv_to_db example_conversions (Some (Csv df)) t
  = @load_csv_to_db example_conversions (Some (Csv df)) ∅.
Proof.
  intros df t. apply (@load_csv_to_db_replaces example_conversions df t ∅).
  by_evaluation.
Defined.

Lemma load_csv_to_db_keeps_constraints_witness :
  let df := mkDataFrame ["name"; "position"; "email"; "salary"; "department"]
              [[VStr "Bob"; VStr "Manager"; VStr "bob@x.com"; VInt 110000; VStr "Ops"]] in
  consistent (db (@load_csv_to_db example_conversions (Some (Csv df)) ∅).1).
Proof.
  intros df.
  apply (@load_csv_to_db_keeps_constraints example_conversions (Some (Csv df)) ∅).
  split; intros k; intros; by rewrite lookup_empty in *.
Defined.

(** ** When the writing calls succeed *)

Lemma email_in_use_free (t : table) (skip : option Z) (e : string) :
  email_in_use t skip (VStr e) = false ↔ email_free t skip e.
Proof. split; [apply email_free_check|apply email_in_use_false]. Qed.

Lemma add_employee_outcome (t : table) (name position email : string)
    (salary : float) (department : string) :
  add_employee t name position email salary department
  = Outcome t (Some IntegrityError)
  ∨ ∃ e, add_employee t name position email salary department
         = Outcome (<[new_rowid t := e]> t) None.
Proof.
  unfold add_employee. rewrite sql_insert_auto.
  destruct (_ && _); simpl; eauto.
Qed.

(** X7.  [add_employee] checks nothing but the constraints of the table:
    it returns normally exactly when the salary is a number (not NaN) and
    no record holds the email, empty texts included.  The record is then
    in the table, with the salary as the float that the table returns for
    it, and while the table is below the largest rowid its id is one more
    than the largest id of the table.  In every other case the call raises
    [IntegrityError] and the table is what it was. *)
Theorem add_employee_succeeds_iff (t : table) (name position email : string)
    (salary : float) (department : string) :
  let out := add_employee t name position email salary department in
  let new := mkEmployee (VStr name) (VStr position) (VStr email)
                        (VFloat (real_column salary)) (VStr department) in
  (raised out = None ↔ isnan salary = false ∧ email_free t None email)
  ∧ (raised out = None →
     ∃ id, get t id = None ∧ db out = <[id := new]> t
           ∧ (counting t → id = new_rowid t))
  ∧ (raised out ≠ None → out = Outcome t (Some IntegrityError)).
Proof.
  intros out new. unfold out, new, add_employee. rewrite sql_insert_auto.
  rewrite not_null_new_employee. rewrite <- email_in_use_free.
  destruct (isnan salary) eqn:Hnan; simpl.
  - repeat split; try done; intros; by intuition.
  - rewrite (new_employee_number _ _ _ _ _ Hnan). simpl.
    destruct (email_in_use t None (VStr email)); simpl;
      repeat split; try done; try (intros; by intuition).
    intros _. exists (new_rowid t). split; [apply new_rowid_fresh|done].
Qed.

(** X8.  On an id of the table, [update_employee] returns normally
    exactly when the salary is a number (not NaN) and no other record
    holds the email; the record then has the fields given, the salary as
    the float that the table returns for it.  In every other case the call
    raises [IntegrityError] and the table is what it was. *)
Theorem update_employee_succeeds_iff (t : table) (id : Z)
    (name position email : string) (salary : float) (department : string) :
  is_Some (get t id) →
  let out := update_employee t id name position email salary department in
  (raised out = None ↔ isnan salary = false ∧ email_free t (Some id) email)
  ∧ (raised out = None →
     db out = <[id := mkEmployee (VStr name) (VStr position) (VStr email)
                        (VFloat (real_column salary)) (VStr department)]> t)
  ∧ (raised out ≠ None → out = Outcome t (Some IntegrityError)).
Proof.
  intros [r Hid] out. unfold out.
  rewrite (update_employee_present _ _ _ _ _ _ _ _ Hid).
  rewrite <- email_in_use_free.
  destruct (isnan salary) eqn:Hnan; simpl.
  - repeat split; try done; intros; by intuition.
  - rewrite (new_employee_number _ _ _ _ _ Hnan).
    destruct (email_in_use t (Some id) (VStr email)); simpl;
      repeat split; try done; intros; by intuition.
Qed.

Lemma update_employee_succeeds_iff_witness :
  let t1 := db (add_employee ∅ "Ann" "Engineer" "ann@x.com" (float_of_int 90000) "Eng") in
  let t2 := db (add_employee t1 "Bob" "Manager" "bob@x.com" (float_of_int 110000) "Ops") in
  let out := update_employee t2 1 "Ann" "Director" "bob@x.com" (float_of_int 120000) "Board" in
  out = Outcome t2 (Some IntegrityError).
Proof.
  intros t1 t2.
  destruct (update_employee_succeeds_iff t2 1 "Ann" "Director" "bob@x.com"
              (float_of_int 120000) "Board") as (_ & _ & Hraised).
  - by vm_compute; eauto.
  - apply Hraised. by vm_compute.
Defined.

(** X9.  A create that succeeds is undone by the delete of the id it
    issued: the table is again exactly what it was before the create. *)
Theorem add_then_delete_restores (t : table) (name position email : string)
    (salary : float) (department : string) (id : Z) :
  counting t →
  id ∈ issued t (Create name position email salary department) →
  delete_employee (db (add_employee t name position email salary department)) id
  = Outcome t None.
Proof.
  intros _ Hid.
  destruct (issued_create t name position email salary department)
    as [[_ Hnone]|(e & Hadd & Hone)].
  - rewrite Hnone in Hid. by apply elem_of_nil in Hid.
  - rewrite Hone in Hid. apply list_elem_of_singleton in Hid as ->.
    simpl in Hadd. rewrite Hadd. unfold delete_employee, get, sql_delete; simpl.
    rewrite lookup_insert_eq. simpl.
    by rewrite delete_insert_eq, (delete_id _ _ (new_rowid_fresh t)).
Qed.

Lemma add_then_delete_restores_witness :
  let t := db (add_employee ∅ "Ann" "Engineer" "ann@x.com" (float_of_int 90000) "Eng") in
  delete_employee
    (db (add_employee t "Bob" "Manager" "bob@x.com" (float_of_int 110000) "Ops")) 2
  = Outcome t None.
Proof.
  intros t.
  apply (add_then_delete_restores t "Bob" "Manager" "bob@x.com"
           (float_of_int 110000) "Ops").
  - apply counting_new_rowid. by vm_compute.
  - by vm_compute; left.
Defined.

(** X10.  [delete_employee] never raises, and a second delete of the same
    id is a call that does nothing: it returns the table that the first
    one left. *)
Theorem delete_employee_idempotent (t : table) (id : Z) :
  raised (delete_employee t id) = None
  ∧ delete_employee (db (delete_employee t id)) id
    = Outcome (db (delete_employee t id)) None.
Proof.
  unfold delete_employee, sql_delete, get.
  destruct (t !! id) eqn:Hid; simpl.
  - by rewrite lookup_delete_eq.
  - by rewrite Hid.
Qed.

Lemma email_in_use_insert_skip (t : table) (k : Z) (e : Employee) (v : value) :
  email_in_use (<[k := e]> t) (Some k) v = email_in_use t (Some k) v.
Proof.
  unfold email_in_use. apply bool_decide_ext.
  split; intros (j & r & Hj & Hskip & Hr); exists j, r.
  - rewrite lookup_insert_ne in Hj by congruence. done.
  - rewrite lookup_insert_ne by congruence. done.
Qed.

(** X11.  An update that succeeds can be repeated: the same call on the
    table it left succeeds again and leaves that table as it is. *)
Theorem update_employee_idempotent (t : table) (id : Z)
    (name position email : string) (salary : float) (department : string) :
  raised (update_employee t id name position email salary department) = None →
  update_employee
    (db (update_employee t id name position email salary department))
    id name position email salary department
  = update_employee t id name position email salary department.
Proof.
  intros Hok. destruct (get t id) as [r|] eqn:Hid.
  - revert Hok. rewrite (update_employee_present _ _ _ _ _ _ _ _ Hid).
    destruct (negb (isnan salary)) eqn:Hnan; [|done].
    destruct (email_in_use t (Some id) (VStr email)) eqn:Huse; [done|].
    simpl. intros _.
    erewrite update_employee_present; [|apply lookup_insert_eq].
    rewrite Hnan, email_in_use_insert_skip, Huse. simpl.
    by rewrite insert_insert_eq.
  - unfold update_employee. rewrite Hid. simpl. by rewrite Hid.
Qed.

Lemma update_employee_idempotent_witness :
  let t := db (add_employee ∅ "Ann" "Engineer" "ann@x.com" (float_of_int 90000) "Eng") in
  update_employee
    (db (update_employee t 1 "Ann" "Director" "ann@y.com" (float_of_int 120000) "Board"))
    1 "Ann" "Director" "ann@y.com" (float_of_int 120000) "Board"
  = update_employee t 1 "Ann" "Director" "ann@y.com" (float_of_int 120000) "Board".
Proof.
  intros t.
  apply (update_employee_idempotent t 1 "Ann" "Director" "ann@y.com"
           (float_of_int 120000) "Board").
  by vm_compute.
Defined.

(** ** More on the bulk loader *)


Lemma last_rowid_cell_id (cols : list string) :
  NoDup cols →
  Forall (λ c, names_rowid c = true → c = "id") cols →
  ∀ r found,
    last_rowid_cell cols r found
    = if bool_decide ("id" ∈ cols) then cell cols r "id" else found.
Proof.
  induction 1 as [|c cols Hc Hdup IH]; intros Hcols r found; [done|].
  apply Forall_cons in Hcols as [Hid Hcols]. simpl. rewrite (IH Hcols).
  destruct (names_rowid c) eqn:Hnames.
  - rewrite (Hid eq_refl) in *.
    rewrite (bool_decide_eq_false_2 _ Hc), bool_decide_eq_true_2 by left.
    by destruct r.
  - assert (lower c ≠ "id") as Hlower.
    { intros Heq. unfold names_rowid in Hnames.
      apply bool_decide_eq_false in Hnames. apply Hnames. rewrite Heq. by left. }
    assert (c ≠ "id") as Hne by (by intros ->).
    rewrite (bool_decide_ext ("id" ∈ c :: cols) ("id" ∈ cols)).
    + destruct r as [|v r]; simpl.
      * case_bool_decide; [|done]. by destruct cols.
      * by rewrite decide_False.
    + rewrite elem_of_cons. split; [by intros [?|?]|by right].
Qed.

Lemma cell_in_row (cols : list string) (r : list value) (c : string) :
  cell cols r c = VNone ∨ cell cols r c ∈ r.
Proof.
  revert r. induction cols as [|c' cols IH]; intros [|v r]; simpl; auto.
  destruct (decide (lower c' = c)); [right; left|].
  destruct (IH r) as [?|?]; [by left|right; by right].
Qed.

Lemma int64_frame_rows (df : DataFrame) :
  int64_frame df = true ↔ Forall (Forall (λ v, int64_cell v = true)) (rows df).
Proof.
  unfold int64_frame. rewrite forallb_forall, Forall_forall.
  split; intros Hrows r Hr.
  - apply Forall_forall. intros v Hv%list_elem_of_In.
    apply list_elem_of_In, Hrows in Hr. by apply (proj1 (forallb_forall _ _) Hr).
  - apply forallb_forall. intros v Hv%list_elem_of_In.
    apply list_elem_of_In, Hrows in Hr. by apply (proj1 (Forall_forall _ _) Hr).
Qed.


Section more_loader_properties.

Context `{Conversions}.


Lemma to_sql_empty (df : DataFrame) (t : table) :
  rows df = [] → to_sql df t = Outcome t None.
Proof. intros Hrows. unfold to_sql, int64_frame. by rewrite Hrows. Qed.




(** X13.  A CSV that has the five required columns and no row empties
    the table, and the loader prints that the data was loaded; the other
    columns of the file do not matter, for no INSERT is run. *)
Theorem load_csv_to_db_no_rows (df : DataFrame) (t : table) :
  required_columns ⊆ columns df →
  rows df = [] →
  load_csv_to_db (Some (Csv df)) t = (Outcome ∅ None, Loaded).
Proof.
  intros Hcols Hrows. unfold load_csv_to_db; simpl.
  by rewrite bool_decide_eq_true_2, to_sql_empty.
Qed.

Lemma executemany_insert_rows_with_id (cols : list string)
    (rows : list (list value)) (recs : list (Z * Employee)) :
  Forall2 (λ r rec, rowid_cell cols r = VInt rec.1
                    ∧ int64 rec.1 = true
                    ∧ row_employee cols r = rec.2
                    ∧ not_null rec.2 = true) rows recs →
  NoDup recs.*1 →
  NoDup ((λ rec, email rec.2) <$> recs) →
  ∀ t : table,
    Forall (λ rec, t !! rec.1 = None
                   ∧ email_in_use t None (email rec.2) = false) recs →
    executemany (insert_row cols) t rows = Outcome (list_to_map recs ∪ t) None.
Proof.
  induction 1 as [|r [k e] rows recs (Hid & Hk64 & He & Hnull) _ IH];
    intros Hkeys Hemails t Hfree; simpl in *.
  - by rewrite (left_id_L ∅ (∪)).
  - apply NoDup_cons in Hkeys as [Hk Hkeys].
    apply NoDup_cons in Hemails as [Hemail Hemails].
    apply Forall_cons in Hfree as [[Htk Huse] Hfree]. simpl in *.
    unfold insert_row. rewrite Hid, He. simpl. rewrite Hk64. simpl.
    unfold sql_insert. simpl.
    rewrite Hnull, Htk, Huse. simpl. rewrite IH; [|done..|].
    + f_equal. rewrite <- insert_union_l. symmetry. apply insert_union_r.
      apply not_elem_of_list_to_map_1. done.
    + apply Forall_forall. intros [k' e'] Hrec.
      pose proof (proj1 (Forall_forall _ _) Hfree _ Hrec) as [Htk' Huse'].
      simpl in *. split.
      * rewrite lookup_insert_ne; [done|]. intros ->. apply Hk.
        apply list_elem_of_fmap. by exists (k', e').
      * apply email_in_use_insert_false; [|done]. intros Heq. apply Hemail.
        apply list_elem_of_fmap. by exists (k', e').
Qed.

(** X14.  The ids of an import are those of the CSV when it has them: for
    a CSV whose columns are [id] and the five required ones, with integers
    of 64 bits, well-formed rows, integer ids that are pairwise distinct
    and emails that are pairwise distinct, the import succeeds and the
    table holds each row's record under the id of its row. *)
Theorem load_csv_to_db_with_id_column (df : DataFrame)
    (recs : list (Z * Employee)) (t : table) :
  columns df ≡ₚ "id" :: required_columns →
  int64_frame df = true →
  Forall2 (λ r rec, cell (columns df) r "id" = VInt rec.1
                    ∧ well_formed_row (columns df) r rec.2) (rows df) recs →
  NoDup recs.*1 →
  NoDup ((λ rec, email rec.2) <$> recs) →
  load_csv_to_db (Some (Csv df)) t = (Outcome (list_to_map recs) None, Loaded).
Proof.
  intros Hcols Hint Hrows Hkeys Hemails.
  assert (bool_decide (required_columns ⊆ columns df) = true) as Hreq.
  { apply bool_decide_eq_true. rewrite Hcols. intros c Hc. by right. }
  assert (forallb is_table_column (columns df) = true) as Hknown.
  { apply forallb_forall. intros c Hc%list_elem_of_In.
    rewrite Hcols in Hc. revert c Hc. apply Forall_forall.
    by repeat constructor. }
  assert (∀ r, rowid_cell (columns df) r = cell (columns df) r "id") as Hid.
  { intros r. unfold rowid_cell. rewrite last_rowid_cell_id.
    - rewrite bool_decide_eq_true_2; [done|]. rewrite Hcols. by left.
    - rewrite Hcols. by_evaluation.
    - rewrite Hcols. repeat constructor; by intros [=]. }
  unfold load_csv_to_db; simpl. rewrite Hreq, to_sql_known_columns by done.
  simpl.
  rewrite (executemany_insert_rows_with_id _ _ recs); [|..|done|done|].
  - simpl. by rewrite (right_id_L ∅ (∪)).
  - apply int64_frame_rows in Hint.
    apply Forall2_same_length_lookup. split; [by eapply Forall2_length|].
    intros i r [k e] Hr Hrec.
    pose proof (Forall2_lookup_lr _ _ _ _ _ _ Hrows Hr Hrec) as [Hk Hrow].
    pose proof (proj1 (Forall_lookup _ _) Hint i r Hr) as Hcells.
    simpl in *. rewrite Hid. split; [done|]. split.
    { destruct (cell_in_row (columns df) r "id") as [Hnone|Hin];
        [congruence|].
      rewrite Hk in Hin.
      by apply (proj1 (Forall_forall _ _) Hcells) in Hin. }
    destruct (well_formed_rows (columns df) [r] [e]) as (He & Htext & _ & Hs);
      [apply Forall2_cons_2; [exact Hrow|apply Forall2_nil_2]|].
    injection He as He. apply Forall_cons in Htext as [Htext _].
    apply Forall_cons in Hs as [Hs _].
    split; [done|]. rewrite <- He. by apply not_null_row_employee.
  - apply Forall_forall. intros rec _. split; [apply lookup_empty|].
    apply not_true_iff_false.
    intros (k & e & Hk & _)%email_in_use_true. by rewrite lookup_empty in Hk.
Qed.

End more_loader_properties.

Lemma load_csv_to_db_no_rows_witness :
  let df := mkDataFrame ["name"; "position"; "email"; "salary"; "department"; "age"] [] in
  let t := db (add_employee ∅ "Ann" "Engineer" "ann@x.com" (float_of_int 90000) "Eng") in
  @load_csv_to_db example_conversions (Some (Csv df)) t = (Outcome ∅ None, Loaded).
Proof.
  intros df t.
  apply (@load_csv_to_db_no_rows example_conversions df t); [|reflexivity].
  by_evaluation.
Defined.

Lemma load_csv_to_db_with_id_column_witness :
  let df := mkDataFrame ["id"; "name"; "position"; "email"; "salary"; "department"]
              [[VInt 10; VStr "Alice"; VStr "Engineer"; VStr "alice@x.com";
                VInt 90000; VStr "Eng"];
               [VInt 7; VStr "Bob"; VStr "Manager"; VStr "bob@x.com";
                VInt 110000; VStr "Ops"]] in
  let alice := mkEmployee (VStr "Alice") (VStr "Engineer") (VStr "alice@x.com")
                          (VFloat (float_of_int 90000)) (VStr "Eng") in
  let bob := mkEmployee (VStr "Bob") (VStr "Manager") (VStr "bob@x.com")
                        (VFloat (float_of_int 110000)) (VStr "Ops") in
  @load_csv_to_db example_conversions (Some (Csv df)) ∅
  = (Outcome (list_to_map [(10, alice); (7, bob)]) None, Loaded).
Proof.
  intros df alice bob.
  apply (@load_csv_to_db_with_id_column example_conversions df
           [(10, alice); (7, bob)] ∅).
  - reflexivity.
  - reflexivity.
  - well_formed_rows.
  - by_evaluation.
  - by_evaluation.
Defined.

(** ** The dashboard *)

Lemma sum_list_with_plus {A} (f g : A → nat) (l : list A) :
  sum_list_with (λ x, f x + g x)%nat l
  = (sum_list_with f l + sum_list_with g l)%nat.
Proof. induction l as [|x l IH]; simpl; [done|]. rewrite IH. lia. Qed.

Lemma sum_list_with_one (vs : list value) (x : value) :
  NoDup vs →
  sum_list_with (λ v, if decide (x = v) then 1 else 0)%nat vs
  = (if decide (x ∈ vs) then 1 else 0)%nat.
Proof.
  induction 1 as [|v vs Hv _ IH]; simpl.
  - destruct (decide (x ∈ [])) as [Hx|]; [|done]. by apply elem_of_nil in Hx.
  - rewrite IH. destruct (decide (x = v)) as [->|Hne].
    + destruct (decide (v ∈ vs)); [done|].
      destruct (decide (v ∈ v :: vs)) as [|Hn]; [done|].
      exfalso. apply Hn. by left.
    + destruct (decide (x ∈ vs)) as [Hx|Hx];
        destruct (decide (x ∈ v :: vs)) as [Hx'|Hx']; try done.
      * exfalso. apply Hx'. by right.
      * exfalso. by apply elem_of_cons in Hx' as [?|?].
Qed.

Lemma filter_ext_elem_of {A} (P Q : A → Prop) `{∀ x, Decision (P x)}
    `{∀ x, Decision (Q x)} (l : list A) :
  (∀ x, x ∈ l → P x ↔ Q x) → filter P l = filter Q l.
Proof.
  induction l as [|x l IH]; intros Hl; [done|].
  rewrite !filter_cons, IH by (intros y Hy; apply Hl; by right).
  destruct (decide (P x)) as [HP|HP], (decide (Q x)) as [HQ|HQ]; try done.
  - exfalso. apply HQ, Hl; [by left|done].
  - exfalso. apply HP, Hl; [by left|done].
Qed.

(** The counts of the values [vs] in a column add up to the number of its
    cells that hold one of them. *)
Lemma sum_counts (vs l : list value) :
  NoDup vs →
  sum_list_with (λ v, length (filter (λ w, w = v) l)) vs
  = length (filter (λ w, w ∈ vs) l).
Proof.
  intros Hvs. induction l as [|x l IH]; simpl.
  - clear. induction vs as [|v vs IH]; simpl; [done|]. by rewrite IH.
  - rewrite (filter_cons (λ w, w ∈ vs)).
    transitivity
      (sum_list_with (λ v, (if decide (x = v) then 1 else 0)
                           + length (filter (λ w, w = v) l))%nat vs).
    + clear. induction vs as [|v vs IH]; simpl; [done|]. rewrite IH.
      f_equal. rewrite filter_cons. by destruct (decide (x = v)).
    + rewrite sum_list_with_plus, IH, sum_list_with_one by done.
      by destruct (decide (x ∈ vs)).
Qed.

Lemma filter_all {A} (P : A → Prop) `{∀ x, Decision (P x)} (l : list A) :
  Forall P l → filter P l = l.
Proof.
  induction 1 as [|x l Hx _ IH]; [done|].
  by rewrite filter_cons, decide_True, IH.
Qed.

Lemma sum_list_snd_fmap {A} (f : A → nat) (vs : list A) :
  sum_list ((λ v, (v, f v)) <$> vs).*2 = sum_list_with f vs.
Proof. induction vs as [|v vs IH]; csimpl; [done|]. by rewrite IH. Qed.

Lemma value_counts_sum (l : list value) :
  sum_list (value_counts l).*2 = length (dropna l).
Proof.
  unfold value_counts.
  transitivity (sum_list_with (λ v, length (filter (λ w, w = v) l))
                              (remove_dups (dropna l))).
  - apply sum_list_snd_fmap.
  - rewrite sum_counts by apply NoDup_remove_dups. f_equal.
    apply filter_ext_elem_of. intros x Hx.
    rewrite elem_of_remove_dups. unfold dropna. rewrite list_elem_of_filter.
    by intuition.
Qed.

Lemma crud_constraints_add (t : table) (name position email : string)
    (salary : float) (department : string) :
  consistent t →
  consistent (db (add_employee t name position email salary department)).
Proof.
  intros Ht. unfold add_employee.
  apply consistent_commit; eauto using consistent_sql_insert.
Qed.

Lemma consistent_departments (t : table) :
  consistent t →
  dropna (Department (load_employees t)) = Department (load_employees t).
Proof.
  intros [Hnull _]. unfold dropna, Department, load_employees.
  apply filter_all. apply Forall_fmap, Forall_forall.
  intros [k r] Hkr%elem_of_map_to_list. simpl.
  specialize (Hnull k r Hkr). unfold not_null in Hnull.
  apply bool_decide_eq_true in Hnull. by destruct Hnull as (_ & _ & _ & _ & ?).
Qed.

(** X15.  The pie chart accounts for every employee: in a table that
    keeps the schema's constraints, the counts of the slices of
    "Employees by Department" add up to the metric "Total Employees". *)
Theorem pie_accounts_for_every_employee (t : table) :
  consistent t →
  let df := load_employees t in
  sum_list (value_counts (Department df)).*2 = total_employees df.
Proof.
  intros Ht df. unfold df. rewrite value_counts_sum, consistent_departments by done.
  unfold Department, total_employees. by rewrite length_fmap.
Qed.

Lemma pie_accounts_for_every_employee_witness :
  let t1 := db (add_employee ∅ "Ann" "Engineer" "ann@x.com" (float_of_int 90000) "Eng") in
  let t2 := db (add_employee t1 "Bob" "Manager" "bob@x.com" (float_of_int 110000) "Ops") in
  let t3 := db (add_employee t2 "Cyd" "Clerk" "cyd@x.com" (float_of_int 50000) "Ops") in
  sum_list (value_counts (Department (load_employees t3))).*2 = 3%nat.
Proof.
  intros t1 t2 t3.
  change 3%nat with (total_employees (load_employees t3)).
  apply (pie_accounts_for_every_employee t3).
  destruct (crud_constraints_add t2 "Cyd" "Clerk" "cyd@x.com"
              (float_of_int 50000) "Ops"); [|done].
  destruct (crud_constraints_add t1 "Bob" "Manager" "bob@x.com"
              (float_of_int 110000) "Ops"); [|done].
  destruct (crud_constraints_add ∅ "Ann" "Engineer" "ann@x.com"
              (float_of_int 90000) "Eng"); [|done].
  split; intros k; intros; by rewrite lookup_empty in *.
Defined.

(** X16.  In a table that keeps the schema's constraints, the metric
    "Number of Departments" is the number of slices of the pie chart, no
    slice is empty, the metric is at most "Total Employees", and it is 0
    exactly when there is no employee. *)
Theorem number_of_departments_bounds (t : table) :
  consistent t →
  let df := load_employees t in
  nunique (Department df) = length (value_counts (Department df))
  ∧ (∀ v n, (v, n) ∈ value_counts (Department df) → (1 ≤ n)%nat)
  ∧ (nunique (Department df) ≤ total_employees df)%nat
  ∧ (nunique (Department df) = 0%nat ↔ total_employees df = 0%nat).
Proof.
  intros Ht df. unfold nunique, value_counts, total_employees.
  pose proof (consistent_departments t Ht) as Hdrop. fold df in Hdrop.
  rewrite Hdrop.
  assert (length (Department df) = length df) as Hlen
    by (unfold Department; by rewrite length_fmap).
  split; [by rewrite length_fmap|]. split; [|split].
  - intros v n (w & [= -> ->] & Hw)%list_elem_of_fmap.
    apply (proj1 (elem_of_remove_dups _ _)) in Hw.
    destruct (filter (λ w0, w0 = w) (Department df)) as [|? ?] eqn:E;
      simpl; [|lia].
    exfalso. apply (not_elem_of_nil w). rewrite <- E.
    apply list_elem_of_filter. split; [done|exact Hw].
  - rewrite <- Hlen. apply submseteq_length, NoDup_submseteq.
    + apply NoDup_remove_dups.
    + intros x. by rewrite elem_of_remove_dups.
  - rewrite <- Hlen. split; intros Hzero.
    + destruct (Department df) as [|v l]; [done|]. exfalso.
      apply nil_length_inv in Hzero.
      apply (not_elem_of_nil v). rewrite <- Hzero.
      apply elem_of_remove_dups. by left.
    + by apply nil_length_inv in Hzero as ->.
Qed.

Lemma number_of_departments_bounds_witness :
  let t1 := db (add_employee ∅ "Ann" "Engineer" "ann@x.com" (float_of_int 90000) "Eng") in
  let t2 := db (add_employee t1 "Bob" "Manager" "bob@x.com" (float_of_int 110000) "Ops") in
  let t3 := db (add_employee t2 "Cyd" "Clerk" "cyd@x.com" (float_of_int 50000) "Ops") in
  (nunique (Department (load_employees t3)) ≤ 3)%nat.
Proof.
  intros t1 t2 t3.
  change 3%nat with (total_employees (load_employees t3)).
  apply (number_of_departments_bounds t3).
  destruct (crud_constraints_add t2 "Cyd" "Clerk" "cyd@x.com"
              (float_of_int 50000) "Ops"); [|done].
  destruct (crud_constraints_add t1 "Bob" "Manager" "bob@x.com"
              (float_of_int 110000) "Ops"); [|done].
  destruct (crud_constraints_add ∅ "Ann" "Engineer" "ann@x.com"
              (float_of_int 90000) "Eng"); [|done].
  split; intros k; intros; by rewrite lookup_empty in *.
Defined.

Lemma total_employees_size (t : table) :
  total_employees (load_employees t) = size t.
Proof. apply length_map_to_list. Qed.

(** X17.  The metric "Total Employees" follows the writes: a create that
    succeeds raises it by one, a delete of an id of the table lowers it
    by one, and an update, a create that fails and a delete of an absent
    id leave it as it is. *)
Theorem total_employees_follows_writes (t : table) (id : Z)
    (name position email : string) (salary : float) (department : string) :
  let total t := total_employees (load_employees t) in
  let added := add_employee t name position email salary department in
  (raised added = None → total (db added) = S (total t))
  ∧ (raised added ≠ None → total (db added) = total t)
  ∧ (is_Some (get t id) → S (total (db (delete_employee t id))) = total t)
  ∧ (get t id = None → total (db (delete_employee t id)) = total t)
  ∧ total (db (update_employee t id name position email salary department))
    = total t.
Proof.
  intros total added. unfold total. rewrite !total_employees_size.
  split; [|split; [|split; [|split]]].
  - intros Hok. unfold added in *.
    destruct (add_employee_outcome t name position email salary department)
      as [Hfail|[e Hadd]].
    + rewrite Hfail in Hok. discriminate.
    + rewrite Hadd. simpl. apply map_size_insert_None, new_rowid_fresh.
  - intros Hraised. unfold added in *.
    destruct (add_employee_outcome t name position email salary department)
      as [Hfail|[e Hadd]].
    + by rewrite Hfail.
    + rewrite Hadd in Hraised. by destruct Hraised.
  - intros [r Hid]. unfold delete_employee, sql_delete. rewrite Hid. simpl.
    rewrite <- !length_map_to_list.
    by rewrite <- (map_to_list_delete t id r Hid).
  - intros Hid. unfold delete_employee. by rewrite Hid.
  - unfold update_employee, sql_update.
    destruct (get t id) as [r|] eqn:Hid; [|done].
    destruct (negb _); [done|]. destruct (email_in_use _ _ _); [done|].
    simpl. apply map_size_insert_Some. unfold get in Hid. by rewrite Hid.
Qed.

(** ** The page *)

(** The row that the frame of the table has for an id is the record that
    the table has for it. *)
Lemma find_employee_load_employees (t : table) (id : Z) :
  find_employee (load_employees t) id = (λ r, (id, r)) <$> get t id.
Proof.
  unfold find_employee, load_employees, get.
  destruct (filter _ (map_to_list t)) as [|[k r] l] eqn:E; simpl.
  - destruct (t !! id) as [r|] eqn:Hid; [|done]. exfalso.
    apply (not_elem_of_nil (id, r)). rewrite <- E.
    apply list_elem_of_filter. split; [done|]. by apply elem_of_map_to_list.
  - assert ((k, r) ∈ filter (λ row : Z * Employee, row.1 = id) (map_to_list t))
      as [Hk Hr%elem_of_map_to_list]%list_elem_of_filter
      by (rewrite E; left).
    simpl in Hk. subst k. by rewrite Hr.
Qed.

Lemma texts_nil (column : list value) :
  texts column = [] ↔ Forall (λ v, is_str v = false) column.
Proof.
  unfold texts. induction column as [|v column IH]; [done|].
  rewrite Forall_cons, <- IH. destruct v; simpl; by intuition.
Qed.

(** The dashboard shows its figures when every salary is a float.  It
    stops the run when a salary is a text and another is not, and when a
    salary is a text and pandas averages no column of texts. *)
Lemma tab1_float_salaries `{Pandas} (t : table) (p : page) :
  float_salaries t → tab1 (load_employees t) p = (inr (), p).
Proof.
  intros Ht. unfold tab1, mean.
  replace (texts (Salary <$> load_employees t)) with (@nil string); [done|].
  symmetry. apply texts_nil, Forall_fmap, Forall_forall.
  intros [k r] Hkr%elem_of_map_to_list.
  specialize (Ht k r Hkr). unfold Salary. simpl in *.
  by destruct (salary r).
Qed.

Lemma tab1_text_salary `{Pandas} (t : table) (p : page) (k : Z) (r : Employee)
    (s : string) :
  get t k = Some r →
  Salary (k, r) = VStr s →
  (∃ k' r', get t k' = Some r' ∧ is_str (Salary (k', r')) = false)
  ∨ (∀ ts, averages_texts ts = false) →
  tab1 (load_employees t) p = (inl (Raised TypeError), p).
Proof.
  intros Hk Hs Hnot. unfold tab1, mean.
  destruct (texts (Salary <$> load_employees t)) as [|s' ts] eqn:Htexts.
  - exfalso. apply texts_nil in Htexts.
    rewrite Forall_fmap, Forall_forall in Htexts.
    specialize (Htexts (k, r)). simpl in Htexts. rewrite Hs in Htexts.
    discriminate Htexts. by apply elem_of_map_to_list.
  - replace (forallb is_str (Salary <$> load_employees t)
             && averages_texts (s' :: ts)) with false; [done|].
    symmetry. destruct Hnot as [(k' & r' & Hk' & Hr')|Hnot];
      [|by rewrite Hnot, andb_false_r].
    apply andb_false_iff. left. apply not_true_iff_false.
    rewrite forallb_forall. intros Hall.
    rewrite (Hall (Salary (k', r'))) in Hr'; [done|].
    apply list_elem_of_In, list_elem_of_fmap. exists (k', r').
    split; [done|]. by apply elem_of_map_to_list.
Qed.

Lemma finite_float_salaries (t : table) : finite_salaries t → float_salaries t.
Proof.
  intros Ht k r Hk. specialize (Ht k r Hk). simpl in *.
  by destruct (salary r).
Qed.

(** The second tab in a run in which none of its buttons is clicked: it
    draws the edit form, which it can when the salary of the record is a
    finite float, or shows the warning, or does nothing. *)
Lemma tab2_no_click `{Python} (t : table) (w : widgets) (p : page) :
  finite_salaries t →
  update_button w = false →
  delete_button w = false →
  tab2 (load_employees t) w p
  = (inr (), Page (store p) (db_loaded p) (notices p ++ edit_warning t w)
                  (console p)).
Proof.
  intros Ht Hupdate Hdelete. unfold tab2, edit_warning.
  rewrite find_employee_load_employees, Hupdate, Hdelete.
  destruct (action w).
  - destruct (get t (edit_id w)) as [r|] eqn:Hid; simpl; [|done].
    specialize (Ht _ _ Hid). simpl in Ht.
    unfold mbind, script_bind, py_float, number_input, Salary; simpl.
    destruct (salary r) as [|?|x|?]; try done.
    destruct x; try done; rewrite (right_id_L [] (++)); by destruct p.
  - rewrite (right_id_L [] (++)). by destruct p.
Qed.

Lemma load_csv_to_db_returns `{Conversions} (fs : option csv_file) (t : table) :
  raised (load_csv_to_db fs t).1 = None.
Proof.
  unfold load_csv_to_db. destruct fs as [[|df]|]; simpl; [done| |done].
  case_bool_decide; [|done]. by destruct (raised (to_sql df _)).
Qed.

Section page_properties.

Context `{Conversions} `{Pandas} `{Python}.

(** X18.  The loader runs once per session: whatever the session and the
    file, the start-up block ends normally with ['db_loaded'] set, and
    the block run again in that session, whatever the file has become,
    changes nothing and shows nothing. *)
Theorem startup_once_per_session (fs fs' : option csv_file) (p : page) :
  (startup fs p).1 = inr ()
  ∧ db_loaded (startup fs p).2 = Some true
  ∧ startup fs' (startup fs p).2 = (inr (), (startup fs p).2).
Proof.
  assert (∀ q, db_loaded q = Some true → startup fs' q = (inr (), q)) as Hagain.
  { intros [t flag ns c]. simpl. intros ->. reflexivity. }
  unfold startup at 1 2 4 5.
  destruct (default false (db_loaded p)) eqn:Hflag.
  - simpl. split; [done|]. split; [done|]. by apply Hagain.
  - rewrite load_csv_to_db_returns.
    simpl. split; [done|]. split; [done|]. by apply Hagain.
Qed.

Lemma startup_new_session (fs : option csv_file) (p : page) :
  db_loaded p ≠ Some true →
  startup fs p
  = (inr (),
     Page (db (load_csv_to_db fs (store p)).1) (Some true)
          (notices p ++ [DataLoadedSuccessfully])
          (console p ++ [(load_csv_to_db fs (store p)).2])).
Proof.
  intros Hflag. unfold startup.
  assert (default false (db_loaded p) = false) as ->
    by (by destruct (db_loaded p) as [[]|]).
  by rewrite load_csv_to_db_returns.
Qed.

(** X19.  In a session that has not loaded yet, the start-up block runs
    the loader and shows "Data loaded successfully!" whatever the loader
    did: when there is no file, with the table left as it was; and when
    the CSV has the five required columns, with a table that does not
    depend on the one before, so that what was written through the page
    in an earlier session is gone. *)
Theorem startup_in_a_new_session (fs : option csv_file) (p : page) :
  db_loaded p ≠ Some true →
  notices (startup fs p).2 = notices p ++ [DataLoadedSuccessfully]
  ∧ store (startup fs p).2 = db (load_csv_to_db fs (store p)).1
  ∧ console (startup fs p).2 = console p ++ [(load_csv_to_db fs (store p)).2]
  ∧ (fs = None → store (startup fs p).2 = store p)
  ∧ (∀ df q, fs = Some (Csv df) → required_columns ⊆ columns df →
       db_loaded q ≠ Some true →
       store (startup fs q).2 = store (startup fs p).2).
Proof.
  intros Hflag. rewrite startup_new_session by done. simpl.
  split; [done|]. split; [done|]. split; [done|]. split.
  - by intros ->.
  - intros df q -> Hcols Hq. rewrite startup_new_session by done. simpl.
    unfold load_csv_to_db; simpl. by rewrite bool_decide_eq_true_2.
Qed.

(** X20.  On a table whose salaries are all finite floats, so that the
    dashboard above the tab shows its figures, a click on "Delete
    Employee" always ends in the success box and a rerun, whether the
    table has the id or not: the table is what [delete_employee] leaves,
    and when no record has the id it is the table of before, "Employee
    deleted successfully!" notwithstanding. *)
Theorem tabs_delete_click (w : widgets) (p : page) :
  finite_salaries (store p) →
  action w = DeleteAction →
  delete_button w = true →
  let run := tabs w p in
  run.1 = inl Rerun
  ∧ notices run.2 = notices p ++ [EmployeeDeleted]
  ∧ store run.2 = db (delete_employee (store p) (edit_id w))
  ∧ (get (store p) (edit_id w) = None → store run.2 = store p).
Proof.
  intros Hp Haction Hclick. unfold tabs, mbind, script_bind.
  rewrite tab1_float_salaries by (by apply finite_float_salaries).
  unfold tab2, call, notify, experimental_rerun, mbind, script_bind.
  rewrite Haction, Hclick. simpl.
  assert (raised (delete_employee (store p) (edit_id w)) = None) as ->.
  { unfold delete_employee. by destruct (get (store p) (edit_id w)). }
  simpl. split; [done|]. split; [done|]. split; [done|].
  intros Hid. unfold delete_employee. by rewrite Hid.
Qed.

(** X21.  When the edit form is not offered.  On a table whose salaries
    are all finite floats, "Edit" with an id that no record has shows
    "Employee not found." and calls nothing, whatever the update button
    says.  And when some record of the table has a text as its salary, the
    run stops in the dashboard with [TypeError] whatever the widgets
    return: no tab is reached, no box is shown and the table is
    untouched.  (This is so whenever another record has a float as its
    salary, and with a pandas that averages no column of texts it is so
    for every such table.) *)
Theorem tabs_no_edit_form (w : widgets) (p : page) :
  (finite_salaries (store p) →
   action w = EditAction →
   get (store p) (edit_id w) = None →
   add_button w = false →
   tabs w p = (inr (), Page (store p) (db_loaded p)
                            (notices p ++ [EmployeeNotFound]) (console p)))
  ∧ (∀ k r s,
       get (store p) k = Some r →
       Salary (k, r) = VStr s →
       (∃ k' r', get (store p) k' = Some r' ∧ is_str (Salary (k', r')) = false)
       ∨ (∀ ts, averages_texts ts = false) →
       tabs w p = (inl (Raised TypeError), p)).
Proof.
  unfold tabs, mbind, script_bind. split.
  - intros Hp Haction Hid Hadd.
    rewrite tab1_float_salaries by (by apply finite_float_salaries).
    unfold tab2. rewrite Haction, find_employee_load_employees, Hid. simpl.
    unfold tab3. by rewrite Hadd.
  - intros k r s Hk Hs Hnot. by rewrite (tab1_text_salary _ _ _ _ _ Hk Hs Hnot).
Qed.

(** X22.  A click on "Update Employee" for a record of the table, on a
    table whose salaries are all finite floats (so that the dashboard
    shows its figures and the form can show the record).  When the salary
    entered is a number and no other record holds the email entered, the
    record gets the fields entered, the salary as the float that the table
    returns for it, and the run ends in the success box and a rerun;
    otherwise [IntegrityError] escapes, no box is shown and the table is
    untouched. *)
Theorem tabs_update_click (w : widgets) (p : page) :
  finite_salaries (store p) →
  action w = EditAction →
  is_Some (get (store p) (edit_id w)) →
  update_button w = true →
  let run := tabs w p in
  let valid := isnan (edit_salary w) = false
               ∧ email_free (store p) (Some (edit_id w)) (edit_email w) in
  (valid →
   run.1 = inl Rerun
   ∧ notices run.2 = notices p ++ [EmployeeUpdated]
   ∧ get (store run.2) (edit_id w)
     = Some (mkEmployee (VStr (edit_name w)) (VStr (edit_position w))
                        (VStr (edit_email w))
                        (VFloat (real_column (edit_salary w)))
                        (VStr (edit_department w))))
  ∧ (¬ valid → run = (inl (Raised (StoreError IntegrityError)), p)).
Proof.
  intros Hp Haction [r Hid] Hclick. unfold tabs, mbind, script_bind.
  rewrite tab1_float_salaries by (by apply finite_float_salaries).
  unfold tab2. rewrite Haction, find_employee_load_employees, Hid, Hclick.
  simpl. unfold mbind, script_bind, py_float, Salary. simpl.
  specialize (Hp _ _ Hid). simpl in Hp.
  destruct (salary r) as [|?|x|?]; try done.
  assert (number_input x p = (inr (), p)) as ->
    by (unfold number_input; by destruct x).
  unfold call, notify, experimental_rerun.
  rewrite (update_employee_present _ _ _ _ _ _ _ _ Hid).
  rewrite <- email_in_use_free.
  destruct (isnan (edit_salary w)) eqn:Hnan; simpl.
  - split; [by intros [? ?]|]. intros _. by destruct p.
  - rewrite (new_employee_number _ _ _ _ _ Hnan).
    destruct (email_in_use (store p) (Some (edit_id w)) (VStr (edit_email w)));
      simpl; (split; [intros [? ?]|intros Hnot]); try done;
      try (exfalso; by apply Hnot); try by destruct p.
    unfold get. by rewrite lookup_insert_eq.
Qed.

(** X23.  A click on "Add Employee", on a table whose salaries are all
    finite floats, so that the dashboard and the second tab above the form
    show what they have to show.  The click is the one click of the run
    and the salary input returns a number.  When no record holds the email
    entered, the record is added, the salary as the float that the table
    returns for it, under an id that no record had (one more than the
    largest id, while the table is below the largest rowid), and the run
    ends in the success box and a rerun; when a record holds it,
    [IntegrityError] escapes, no success box is shown and the table is
    untouched. *)
Theorem tabs_add_click (w : widgets) (p : page) :
  finite_salaries (store p) →
  update_button w = false →
  delete_button w = false →
  add_button w = true →
  isnan (add_salary w) = false →
  let run := tabs w p in
  let shown := notices p ++ edit_warning (store p) w in
  let new := mkEmployee (VStr (add_name w)) (VStr (add_position w))
                        (VStr (add_email w))
                        (VFloat (real_column (add_salary w)))
                        (VStr (add_department w)) in
  (email_free (store p) None (add_email w) →
   run.1 = inl Rerun
   ∧ notices run.2 = shown ++ [EmployeeAdded]
   ∧ ∃ id, get (store p) id = None
           ∧ store run.2 = <[id := new]> (store p)
           ∧ (counting (store p) → id = new_rowid (store p)))
  ∧ (¬ email_free (store p) None (add_email w) →
     run.1 = inl (Raised (StoreError IntegrityError))
     ∧ notices run.2 = shown
     ∧ store run.2 = store p).
Proof.
  intros Hp Hupdate Hdelete Hclick Hnan. unfold tabs, mbind, script_bind.
  rewrite tab1_float_salaries by (by apply finite_float_salaries).
  rewrite tab2_no_click by done.
  unfold tab3, mbind, script_bind, call, notify, experimental_rerun,
    add_employee.
  rewrite Hclick. simpl.
  rewrite sql_insert_auto, not_null_new_employee, Hnan.
  rewrite (new_employee_number _ _ _ _ _ Hnan). simpl.
  rewrite <- email_in_use_free.
  destruct (email_in_use (store p) None (VStr (add_email w))); simpl;
    (split; [intros ?|intros Hnot]); try done;
    try (exfalso; by apply Hnot).
  split; [done|]. split; [done|].
  exists (new_rowid (store p)). split; [apply new_rowid_fresh|done].
Qed.

End page_properties.

(** ** The page on concrete sessions *)

Lemma startup_in_a_new_session_witness :
  let t := db (add_employee ∅ "Ann" "Engineer" "ann@x.com" (float_of_int 90000) "Eng") in
  let p := Page t None [] [] in
  notices (@startup example_conversions None p).2 = [DataLoadedSuccessfully]
  ∧ store (@startup example_conversions None p).2 = t
  ∧ console (@startup example_conversions None p).2 = [FileNotFound].
Proof.
  intros t p.
  destruct (@startup_in_a_new_session example_conversions None p)
    as (Hnotices & _ & Hconsole & Hstore & _).
  - discriminate.
  - split; [exact Hnotices|]. split; [exact (Hstore eq_refl)|exact Hconsole].
Defined.

Lemma tabs_delete_click_witness :
  let t := db (add_employee ∅ "Ann" "Engineer" "ann@x.com" (float_of_int 90000) "Eng") in
  let p := Page t (Some true) [] [] in
  let w := Widgets 7 DeleteAction "" "" "" (float_of_int 0) "" false true
                   "" "" "" (float_of_int 0) "" false in
  (@tabs example_pandas example_python w p).1 = inl Rerun
  ∧ notices (@tabs example_pandas example_python w p).2 = [EmployeeDeleted]
  ∧ store (@tabs example_pandas example_python w p).2 = t.
Proof.
  intros t p w.
  destruct (@tabs_delete_click example_pandas example_python w p)
    as (Hrerun & Hnotices & _ & Hstore).
  - by_evaluation.
  - reflexivity.
  - reflexivity.
  - split; [exact Hrerun|]. split; [exact Hnotices|]. apply Hstore.
    by vm_compute.
Defined.

Lemma tabs_no_edit_form_witness :
  let df := mkDataFrame ["name"; "position"; "email"; "salary"; "department"]
              [[VStr "Ann"; VStr "Engineer"; VStr "ann@x.com"; VStr "abc"; VStr "Eng"]] in
  let t := db (@load_csv_to_db example_conversions (Some (Csv df)) ∅).1 in
  let p := Page t (Some true) [] [] in
  let w := Widgets 1 DeleteAction "" "" "" (float_of_int 0) "" false true
                   "" "" "" (float_of_int 0) "" false in
  @tabs example_pandas example_python w p = (inl (Raised TypeError), p).
Proof.
  intros df t p w.
  destruct (@tabs_no_edit_form example_pandas example_python w p) as [_ Htext].
  apply (Htext 1 (mkEmployee (VStr "Ann") (VStr "Engineer") (VStr "ann@x.com")
                             (VStr "abc") (VStr "Eng")) "abc").
  - by vm_compute.
  - reflexivity.
  - right. reflexivity.
Defined.

Lemma tabs_update_click_witness :
  let t1 := db (add_employee ∅ "Ann" "Engineer" "ann@x.com" (float_of_int 90000) "Eng") in
  let t2 := db (add_employee t1 "Bob" "Manager" "bob@x.com" (float_of_int 110000) "Ops") in
  let p := Page t2 (Some true) [] [] in
  let w := Widgets 1 EditAction "Ann" "Director" "bob@x.com"
                   (float_of_int 120000) "Board" true false
                   "" "" "" (float_of_int 0) "" false in
  @tabs example_pandas example_python w p = (inl (Raised (StoreError IntegrityError)), p).
Proof.
  intros t1 t2 p w.
  destruct (@tabs_update_click example_pandas example_python w p) as [_ Hfail].
  - by_evaluation.
  - reflexivity.
  - by vm_compute; eauto.
  - reflexivity.
  - apply Hfail. intros [_ Hfree].
    apply (Hfree 2 (mkEmployee (VStr "Bob") (VStr "Manager") (VStr "bob@x.com")
                               (VFloat (float_of_int 110000)) (VStr "Ops"))).
    + by vm_compute.
    + discriminate.
    + reflexivity.
Defined.

Lemma tabs_add_click_witness :
  let t := db (add_employee ∅ "Ann" "Engineer" "ann@x.com" (float_of_int 90000) "Eng") in
  let p := Page t (Some true) [] [] in
  let w := Widgets 1 EditAction "Ann" "Engineer" "ann@x.com"
                   (float_of_int 90000) "Eng" false false
                   "Bob" "Manager" "ann@x.com" (float_of_int 110000) "Ops" true in
  (@tabs example_pandas example_python w p).1 = inl (Raised (StoreError IntegrityError))
  ∧ notices (@tabs example_pandas example_python w p).2 = []
  ∧ store (@tabs example_pandas example_python w p).2 = t.
Proof.
  intros t p w.
  destruct (@tabs_add_click example_pandas example_python w p) as [_ Hfail].
  - by_evaluation.
  - reflexivity.
  - reflexivity.
  - reflexivity.
  - reflexivity.
  - apply Hfail. intros Hfree.
    apply (Hfree 1 (mkEmployee (VStr "Ann") (VStr "Engineer") (VStr "ann@x.com")
                               (VFloat (float_of_int 90000)) (VStr "Eng"))).
    + by vm_compute.
    + discriminate.
    + reflexivity.
Defined.
